(** * tss-sdk-go: the [server] package, request construction and authentication

    A shallow embedding of [server/server.go]: client construction ([New]),
    URL resolution ([urlFor]), token acquisition ([getAccessToken]), typed
    resource access ([accessResource]) and file upload ([uploadFile]).

    Go strings are byte strings and are modelled by [string] (one [ascii]
    per byte).  Go's [(value, error)] results are modelled as pairs whose
    second component is an [option error] ([None] is Go's [nil]); a [nil]
    byte slice and an empty one are both the empty string.  Requests sent
    over the network are recorded, in order, in the state of a small state
    monad.  The calls to the zerolog logger write to the process log only
    and are not part of the model. *)

From stdpp Require Import gmap strings list fin_maps.
From Stdlib Require Import ZArith Ascii String DecimalString Bool Lia.

Local Open Scope string_scope.
Local Open Scope Z_scope.

Set Default Proof Using "Type".
Local Set Warnings "-register-all".
#[local] Arguments String.append !_ _ / : simpl nomatch.

(** ** Byte strings: the parts of [strings] and [fmt] the package calls *)

Module strings.

(** Membership of a byte in an ASCII cutset. *)
Fixpoint inCutset (c : ascii) (cutset : string) : bool :=
  match cutset with
  | EmptyString => false
  | String d rest => Ascii.eqb c d || inCutset c rest
  end.

Fixpoint TrimLeft (s cutset : string) : string :=
  match s with
  | EmptyString => EmptyString
  | String c rest => if inCutset c cutset then TrimLeft rest cutset else s
  end.

Fixpoint TrimRight (s cutset : string) : string :=
  match s with
  | EmptyString => EmptyString
  | String c rest =>
      match TrimRight rest cutset with
      | EmptyString => if inCutset c cutset then EmptyString else String c EmptyString
      | rest' => String c rest'
      end
  end.

(** [strings.Trim(s, cutset)] for an ASCII cutset: the trailing bytes of
    the cutset are removed, then the leading ones.  The package only
    calls it with the cutset ["/"]. *)
Definition Trim (s cutset : string) : string :=
  TrimLeft (TrimRight s cutset) cutset.

Fixpoint Repeat (s : string) (count : nat) : string :=
  match count with
  | O => EmptyString
  | S n => s +:+ Repeat s n
  end.

Definition HasPrefix (s prefix : string) : bool := String.prefix prefix s.

Fixpoint HasSuffix (s suffix : string) : bool :=
  String.eqb s suffix ||
  match s with
  | EmptyString => false
  | String _ rest => HasSuffix rest suffix
  end.

End strings.

Module fmt.

(** The operands the package passes to [fmt.Sprintf]. *)
Inductive operand :=
| str (s : string)
| int (n : Z).

Definition itoa (n : Z) : string := NilZero.string_of_int (Z.to_int n).

(** [fmt.Sprintf] for the verbs the package uses: [%s] with a string
    operand and [%d] with an integer operand.  Any other use of [%] makes
    Go print a [%!verb(...)] diagnostic, which no format of this package
    triggers; the model prints ["%!"] for it. *)
Fixpoint Sprintf (format : string) (a : list operand) : string :=
  match format with
  | EmptyString => EmptyString
  | String "%" (String "s" rest) =>
      match a with
      | str s :: a' => s +:+ Sprintf rest a'
      | _ => "%!" +:+ Sprintf rest (tail a)
      end
  | String "%" (String "d" rest) =>
      match a with
      | int n :: a' => itoa n +:+ Sprintf rest a'
      | _ => "%!" +:+ Sprintf rest (tail a)
      end
  | String c rest => String c (Sprintf rest a)
  end.

End fmt.

(** ** Errors *)

(** The error values that reach the package's callers, by origin. *)
Inductive error :=
| errorString (msg : string)                 (* fmt.Errorf *)
| netError (msg : string)                    (* net/http: transport, request construction *)
| SyntaxError (msg : string)                 (* encoding/json: malformed input *)
| UnmarshalTypeError (value field : string)  (* encoding/json: value of the wrong kind *)
| MarshalError (msg : string).               (* encoding/json: value that cannot be encoded *)

Module fmt_errors.
Definition Errorf (format : string) (a : list fmt.operand) : error :=
  errorString (fmt.Sprintf format a).
End fmt_errors.

(** ** Configuration *)

Definition cloudBaseURLTemplate : string := "https://%s.secretservercloud.%s/".
Definition defaultAPIPathURI : string := "/api/v1".
Definition defaultTokenPathURI : string := "/oauth2/token".
Definition defaultTLD : string := "com".

Record UserCredential := {
  AccessToken : string;
  Domain : string;
  Username : string;
  Password : string
}.

(** A [*tls.Config]: only the identity of the pointer matters here. *)
Inductive tls_Config := tls_ConfigAt (addr : positive).

Definition LogLevel := Z.
Definition LevelTrace : LogLevel := -2.
Definition LevelDebug : LogLevel := -1.
Definition LevelInfo : LogLevel := 0.
Definition LevelWarn : LogLevel := 1.
Definition LevelError : LogLevel := 2.

Record Configuration := {
  Credentials : UserCredential;
  ServerURL : string;
  TLD : string;
  Tenant : string;
  apiPathURI : string;
  tokenPathURI : string;
  TLSClientConfig : option tls_Config;
  LogLevel_ : LogLevel
}.

(** [Server] embeds [Configuration] and nothing else. *)
Record Server := { config : Configuration }.

Definition set_TLD (v : string) (c : Configuration) : Configuration :=
  {| Credentials := Credentials c; ServerURL := ServerURL c; TLD := v;
     Tenant := Tenant c; apiPathURI := apiPathURI c;
     tokenPathURI := tokenPathURI c; TLSClientConfig := TLSClientConfig c;
     LogLevel_ := LogLevel_ c |}.

Definition set_apiPathURI (v : string) (c : Configuration) : Configuration :=
  {| Credentials := Credentials c; ServerURL := ServerURL c; TLD := TLD c;
     Tenant := Tenant c; apiPathURI := v;
     tokenPathURI := tokenPathURI c; TLSClientConfig := TLSClientConfig c;
     LogLevel_ := LogLevel_ c |}.

Definition set_tokenPathURI (v : string) (c : Configuration) : Configuration :=
  {| Credentials := Credentials c; ServerURL := ServerURL c; TLD := TLD c;
     Tenant := Tenant c; apiPathURI := apiPathURI c;
     tokenPathURI := v; TLSClientConfig := TLSClientConfig c;
     LogLevel_ := LogLevel_ c |}.

(** ** Process-wide state written by [New] *)

Inductive zerolog_Level :=
| TraceLevel | DebugLevel | InfoLevel | WarnLevel | ErrorLevel.

Record Globals := {
  DefaultTransport_TLSClientConfig : option tls_Config;
  zerolog_GlobalLevel : zerolog_Level
}.

(** ** [New] *)

Definition isEmpty (s : string) : bool := String.eqb s "".

Definition New (c : Configuration) (g : Globals)
  : (option Server * option error) * Globals :=
  if isEmpty (ServerURL c) && isEmpty (Tenant c)
     || negb (isEmpty (ServerURL c)) && negb (isEmpty (Tenant c))
  then ((None, Some (fmt_errors.Errorf "either ServerURL or Tenant must be set" [])), g)
  else
    let c := if isEmpty (TLD c) then set_TLD defaultTLD c else c in
    let tls :=
      match TLSClientConfig c with
      | Some t => Some t
      | None => DefaultTransport_TLSClientConfig g
      end in
    let c := if isEmpty (apiPathURI c) then set_apiPathURI defaultAPIPathURI c else c in
    let c := set_apiPathURI (strings.Trim (apiPathURI c) "/") c in
    let c := if isEmpty (tokenPathURI c) then set_tokenPathURI defaultTokenPathURI c else c in
    let c := set_tokenPathURI (strings.Trim (tokenPathURI c) "/") c in
    let level :=
      if LogLevel_ c =? LevelTrace then TraceLevel
      else if LogLevel_ c =? LevelDebug then DebugLevel
      else if LogLevel_ c =? LevelWarn then WarnLevel
      else if LogLevel_ c =? LevelError then ErrorLevel
      else InfoLevel in
    ((Some {| config := c |}, None),
     {| DefaultTransport_TLSClientConfig := tls; zerolog_GlobalLevel := level |}).

(** ** [urlFor] *)

Definition urlFor (s : Server) (resource path : string) : string :=
  let baseURL :=
    if isEmpty (ServerURL (config s))
    then fmt.Sprintf cloudBaseURLTemplate
           [fmt.str (Tenant (config s)); fmt.str (TLD (config s))]
    else ServerURL (config s) in
  if String.eqb resource "token"
  then fmt.Sprintf "%s/%s"
         [fmt.str (strings.Trim baseURL "/");
          fmt.str (strings.Trim (tokenPathURI (config s)) "/")]
  else fmt.Sprintf "%s/%s/%s/%s"
         [fmt.str (strings.Trim baseURL "/");
          fmt.str (strings.Trim (apiPathURI (config s)) "/");
          fmt.str (strings.Trim resource "/");
          fmt.str (strings.Trim path "/")].


(** ** [encoding/json]: what [json.Unmarshal] does with a grant *)

Module json.

Inductive value :=
| Null
| Bool (b : bool)
| Number (literal : string)
| Str (s : string)
| Array (elements : list value)
| Object (members : list (string * value)).

Definition byte (c : ascii) : N := N_of_ascii c.

Definition isSpace (c : ascii) : bool :=
  match c with
  | " "%char | "009"%char | "013"%char | "010"%char => true
  | _ => false
  end.

Fixpoint skipSpace (s : string) : string :=
  match s with
  | String c rest => if isSpace c then skipSpace rest else s
  | EmptyString => EmptyString
  end.

Definition isDigit (c : ascii) : bool :=
  ((48 <=? byte c) && (byte c <=? 57))%N.

Definition hexDigit (c : ascii) : option N :=
  let b := byte c in
  (if (48 <=? b) && (b <=? 57) then Some (b - 48)
   else if (97 <=? b) && (b <=? 102) then Some (b - 87)
   else if (65 <=? b) && (b <=? 70) then Some (b - 55)
   else None)%N.

(** [getu4]: the rune of a [\uXXXX] escape at the head of [s]. *)
Definition getu4 (s : string) : option N :=
  match s with
  | String "\" (String "u" (String a (String b (String c (String d _))))) =>
      match hexDigit a, hexDigit b, hexDigit c, hexDigit d with
      | Some a, Some b, Some c, Some d => Some (a * 4096 + b * 256 + c * 16 + d)%N
      | _, _, _, _ => None
      end
  | _ => None
  end.

Definition chr (n : N) : ascii := ascii_of_N n.

(** [utf8.EncodeRune]; surrogates and runes past U+10FFFF become U+FFFD. *)
Definition EncodeRune (r : N) : string :=
  (if r <? 128 then String (chr r) ""
   else if r <? 2048 then
     String (chr (192 + r / 64)) (String (chr (128 + r mod 64)) "")
   else if ((55296 <=? r) && (r <? 57344)) || (1114111 <? r) then
     String (chr 239) (String (chr 191) (String (chr 189) ""))
   else if r <? 65536 then
     String (chr (224 + r / 4096))
       (String (chr (128 + (r / 64) mod 64)) (String (chr (128 + r mod 64)) ""))
   else
     String (chr (240 + r / 262144))
       (String (chr (128 + (r / 4096) mod 64))
          (String (chr (128 + (r / 64) mod 64)) (String (chr (128 + r mod 64)) ""))))%N.

Definition RuneError : N := 65533.

Definition inRange (lo hi : N) (c : ascii) : bool :=
  ((lo <=? byte c) && (byte c <=? hi))%N.

(** The width of the well-formed UTF-8 sequence at the head of [s], or
    [0] when [utf8.DecodeRune] reports [RuneError] there. *)
Definition runeLen (s : string) : nat :=
  match s with
  | String a rest =>
      if inRange 194 223 a then
        match rest with
        | String b _ => if inRange 128 191 b then 2%nat else 0%nat
        | _ => 0%nat
        end
      else if inRange 224 239 a then
        match rest with
        | String b (String c _) =>
            let lo := if (byte a =? 224)%N then 160%N else 128%N in
            let hi := if (byte a =? 237)%N then 159%N else 191%N in
            if inRange lo hi b && inRange 128 191 c then 3%nat else 0%nat
        | _ => 0%nat
        end
      else if inRange 240 244 a then
        match rest with
        | String b (String c (String d _)) =>
            let lo := if (byte a =? 240)%N then 144%N else 128%N in
            let hi := if (byte a =? 244)%N then 143%N else 191%N in
            if inRange lo hi b && inRange 128 191 c && inRange 128 191 d
            then 4%nat else 0%nat
        | _ => 0%nat
        end
      else 0%nat
  | EmptyString => 0%nat
  end.

Fixpoint takeN (n : nat) (s : string) : string :=
  match n, s with
  | S n', String c rest => String c (takeN n' rest)
  | _, _ => EmptyString
  end.

Fixpoint dropN (n : nat) (s : string) : string :=
  match n, s with
  | S n', String _ rest => dropN n' rest
  | _, _ => s
  end.

Definition isSurrogate (r : N) : bool := ((55296 <=? r) && (r <? 57344))%N.

(** [utf16.DecodeRune], [None] standing for the replacement character. *)
Definition utf16_DecodeRune (r1 r2 : N) : option N :=
  (if (55296 <=? r1) && (r1 <? 56320) && (56320 <=? r2) && (r2 <? 57344)
   then Some ((r1 - 55296) * 1024 + (r2 - 56320) + 65536)
   else None)%N.

(** The contents of a string literal, read after its opening quote: the
    scanner's checks and [unquote] in one pass.  Returns the decoded
    bytes and what follows the closing quote. *)
Fixpoint stringLit (fuel : nat) (s : string) : option (string * string) :=
  match fuel with
  | O => None
  | S fuel =>
      match s with
      | EmptyString => None
      | String "034" rest => Some (EmptyString, rest)
      | String "\" (String e rest) =>
          let simple (c : ascii) :=
            match stringLit fuel rest with
            | Some (t, r) => Some (String c t, r)
            | None => None
            end in
          match e with
          | "034"%char => simple "034"%char
          | "\"%char => simple "\"%char
          | "/"%char => simple "/"%char
          | "b"%char => simple "008"%char
          | "f"%char => simple "012"%char
          | "n"%char => simple "010"%char
          | "r"%char => simple "013"%char
          | "t"%char => simple "009"%char
          | "u"%char =>
              match getu4 s with
              | None => None
              | Some rr =>
                  let after := dropN 6 s in
                  let pair :=
                    if isSurrogate rr then
                      match getu4 after with
                      | Some rr1 => utf16_DecodeRune rr rr1
                      | None => None
                      end
                    else None in
                  match pair with
                  | Some dec =>
                      match stringLit fuel (dropN 6 after) with
                      | Some (t, r) => Some (EncodeRune dec +:+ t, r)
                      | None => None
                      end
                  | None =>
                      let rr := if isSurrogate rr then RuneError else rr in
                      match stringLit fuel after with
                      | Some (t, r) => Some (EncodeRune rr +:+ t, r)
                      | None => None
                      end
                  end
              end
          | _ => None
          end
      | String "\" EmptyString => None
      | String c rest =>
          if (byte c <? 32)%N then None
          else if (byte c <? 128)%N then
            match stringLit fuel rest with
            | Some (t, r) => Some (String c t, r)
            | None => None
            end
          else
            match runeLen s with
            | O =>
                match stringLit fuel rest with
                | Some (t, r) => Some (EncodeRune RuneError +:+ t, r)
                | None => None
                end
            | n =>
                match stringLit fuel (dropN n s) with
                | Some (t, r) => Some (takeN n s +:+ t, r)
                | None => None
                end
            end
      end
  end.

Fixpoint digits (s : string) : string * string :=
  match s with
  | String c rest =>
      if isDigit c then let '(d, r) := digits rest in (String c d, r)
      else (EmptyString, s)
  | EmptyString => (EmptyString, EmptyString)
  end.

(** A number literal at the head of [s]: its text and what follows. *)
Definition numberLit (s : string) : option (string * string) :=
  let '(sign, s1) :=
    match s with
    | String "-" rest => ("-", rest)
    | _ => ("", s)
    end in
  let intPart :=
    match s1 with
    | String "0" rest => Some ("0", rest)
    | String c _ =>
        if isDigit c then Some (digits s1) else None
    | EmptyString => None
    end in
  match intPart with
  | None => None
  | Some (ip, s2) =>
      let frac :=
        match s2 with
        | String "." rest =>
            match digits rest with
            | (EmptyString, _) => None
            | (d, r) => Some ("." +:+ d, r)
            end
        | _ => Some ("", s2)
        end in
      match frac with
      | None => None
      | Some (fp, s3) =>
          let exp :=
            match s3 with
            | String e rest =>
                if Ascii.eqb e "e" || Ascii.eqb e "E" then
                  let '(sg, rest') :=
                    match rest with
                    | String "+" r => ("+", r)
                    | String "-" r => ("-", r)
                    | _ => ("", rest)
                    end in
                  match digits rest' with
                  | (EmptyString, _) => None
                  | (d, r) => Some (String e sg +:+ d, r)
                  end
                else Some ("", s3)
            | EmptyString => Some ("", s3)
            end in
          match exp with
          | None => None
          | Some (ep, s4) => Some (sign +:+ ip +:+ fp +:+ ep, s4)
          end
      end
  end.

Definition literal (word : string) (v : value) (s : string)
  : option (value * string) :=
  if String.prefix word s
  then Some (v, dropN (String.length word) s)
  else None.

(** The scanner refuses an array or object that would be open inside
    [maxNestingDepth] others ("exceeded max depth"). *)
Definition maxNestingDepth : N := 10000.

(** One JSON value at the head of [s] (after white space), and what
    follows it; [depth] is the number of arrays and objects open around
    it.  [elements] reads the rest of an array after its first bracket or
    a comma, [members] the rest of an object. *)
Fixpoint parseValue (fuel : nat) (depth : N) (s : string)
  : option (value * string) :=
  match fuel with
  | O => None
  | S fuel =>
      let elements :=
        fix elements (n : nat) (s : string) : option (list value * string) :=
          match n with
          | O => None
          | S n =>
              match parseValue fuel (N.succ depth) s with
              | None => None
              | Some (v, r) =>
                  match skipSpace r with
                  | String "," r' =>
                      match elements n r' with
                      | Some (vs, r'') => Some (v :: vs, r'')
                      | None => None
                      end
                  | String "]" r' => Some ([v], r')
                  | _ => None
                  end
              end
          end in
      let members :=
        fix members (n : nat) (s : string)
          : option (list (string * value) * string) :=
          match n with
          | O => None
          | S n =>
              match skipSpace s with
              | String "034" r =>
                  match stringLit (S (String.length r)) r with
                  | None => None
                  | Some (k, r1) =>
                      match skipSpace r1 with
                      | String ":" r2 =>
                          match parseValue fuel (N.succ depth) r2 with
                          | None => None
                          | Some (v, r3) =>
                              match skipSpace r3 with
                              | String "," r4 =>
                                  match members n r4 with
                                  | Some (ms, r5) => Some ((k, v) :: ms, r5)
                                  | None => None
                                  end
                              | String "}" r4 => Some ([(k, v)], r4)
                              | _ => None
                              end
                          end
                      | _ => None
                      end
                  end
              | _ => None
              end
          end in
      match skipSpace s with
      | EmptyString => None
      | String "{" r =>
          if (maxNestingDepth <=? depth)%N then None
          else
            match skipSpace r with
            | String "}" r' => Some (Object [], r')
            | _ =>
                match members (S (String.length r)) r with
                | Some (ms, r') => Some (Object ms, r')
                | None => None
                end
            end
      | String "[" r =>
          if (maxNestingDepth <=? depth)%N then None
          else
            match skipSpace r with
            | String "]" r' => Some (Array [], r')
            | _ =>
                match elements (S (String.length r)) r with
                | Some (vs, r') => Some (Array vs, r')
                | None => None
                end
            end
      | String "034" r =>
          match stringLit (S (String.length r)) r with
          | Some (t, r') => Some (Str t, r')
          | None => None
          end
      | String "t" _ as s' => literal "true" (Bool true) s'
      | String "f" _ as s' => literal "false" (Bool false) s'
      | String "n" _ as s' => literal "null" Null s'
      | s' =>
          match numberLit s' with
          | Some (n, r) => Some (Number n, r)
          | None => None
          end
      end
  end.

(** [checkValid] and the scan of the whole input: one value, white space
    around it and nothing else, arrays and objects nested at most
    [maxNestingDepth] deep.  The fuel, one more than the length of the
    input, is not exhausted: a nested value begins after at least one
    byte of the value around it. *)
Definition parse (data : string) : option value :=
  match parseValue (S (String.length data)) 0 data with
  | Some (v, r) =>
      match skipSpace r with
      | EmptyString => Some v
      | _ => None
      end
  | None => None
  end.

(** *** Decoding into the grant structure of [getAccessToken] *)

Record grant := {
  grant_AccessToken : string;    (* `json:"access_token"` *)
  grant_RefreshToken : string;   (* `json:"refresh_token"` *)
  grant_TokenType : string;      (* `json:"token_type"` *)
  grant_ExpiresIn : Z            (* `json:"expires_in"` *)
}.

Definition zeroGrant : grant :=
  {| grant_AccessToken := ""; grant_RefreshToken := "";
     grant_TokenType := ""; grant_ExpiresIn := 0 |}.

Inductive grantField := fAccessToken | fRefreshToken | fTokenType | fExpiresIn.

Definition fieldName (f : grantField) : string :=
  match f with
  | fAccessToken => "access_token"
  | fRefreshToken => "refresh_token"
  | fTokenType => "token_type"
  | fExpiresIn => "expires_in"
  end.

Definition grantFields : list grantField :=
  [fAccessToken; fRefreshToken; fTokenType; fExpiresIn].

(** Case folding of an object key, as far as it can reach an ASCII field
    name: ASCII letters fold to upper case, and the two runes whose
    simple fold is an ASCII letter, U+017F (long s) and U+212A (Kelvin
    sign), fold to [S] and [K]. *)
Fixpoint foldName (s : string) : string :=
  match s with
  | EmptyString => EmptyString
  | String "197" (String "191" rest) => String "S" (foldName rest)
  | String "226" (String "132" (String "170" rest)) => String "K" (foldName rest)
  | String c rest =>
      let b := byte c in
      String (if (97 <=? b) && (b <=? 122) then chr (b - 32) else c)%N
             (foldName rest)
  end.

(** The field a key selects: one of the same name, else one of the same
    folded name, else none (unknown keys are skipped). *)
Definition lookupField (key : string) : option grantField :=
  match List.find (fun f => String.eqb (fieldName f) key) grantFields with
  | Some f => Some f
  | None =>
      List.find (fun f => String.eqb (foldName (fieldName f)) (foldName key))
        grantFields
  end.

Fixpoint decimal (s : string) (acc : Z) : option Z :=
  match s with
  | EmptyString => Some acc
  | String c rest =>
      if isDigit c then decimal rest (10 * acc + Z.of_N (byte c - 48)) else None
  end.

(** [strconv.ParseInt(s, 10, 64)] on a JSON number literal, with the
    overflow check of a 64-bit [int]. *)
Definition ParseInt (s : string) : option Z :=
  let '(neg, ds) :=
    match s with
    | String "-" rest => (true, rest)
    | String "+" rest => (false, rest)
    | _ => (false, s)
    end in
  match ds with
  | EmptyString => None
  | _ =>
      match decimal ds 0 with
      | Some n =>
          let n := if neg then - n else n in
          if (- 2 ^ 63 <=? n) && (n <=? 2 ^ 63 - 1) then Some n else None
      | None => None
      end
  end.

Definition kindName (v : value) : string :=
  match v with
  | Null => "null"
  | Bool _ => "bool"
  | Number _ => "number"
  | Str _ => "string"
  | Array _ => "array"
  | Object _ => "object"
  end.

(** Storing a value into a [string] field. *)
Definition storeString (v : value) (field old : string) : string * option error :=
  match v with
  | Null => (old, None)
  | Str s => (s, None)
  | _ => (old, Some (UnmarshalTypeError (kindName v) field))
  end.

(** Storing a value into an [int] field. *)
Definition storeInt (v : value) (field : string) (old : Z) : Z * option error :=
  match v with
  | Null => (old, None)
  | Number lit =>
      match ParseInt lit with
      | Some n => (n, None)
      | None => (old, Some (UnmarshalTypeError ("number " +:+ lit) field))
      end
  | _ => (old, Some (UnmarshalTypeError (kindName v) field))
  end.

(** [saveError]: the first error is kept, decoding goes on. *)
Definition saveError (saved new : option error) : option error :=
  match saved with
  | Some _ => saved
  | None => new
  end.

Definition storeField (f : grantField) (v : value) (g : grant)
  : grant * option error :=
  match f with
  | fAccessToken =>
      let '(s, e) := storeString v (fieldName f) (grant_AccessToken g) in
      ({| grant_AccessToken := s; grant_RefreshToken := grant_RefreshToken g;
          grant_TokenType := grant_TokenType g;
          grant_ExpiresIn := grant_ExpiresIn g |}, e)
  | fRefreshToken =>
      let '(s, e) := storeString v (fieldName f) (grant_RefreshToken g) in
      ({| grant_AccessToken := grant_AccessToken g; grant_RefreshToken := s;
          grant_TokenType := grant_TokenType g;
          grant_ExpiresIn := grant_ExpiresIn g |}, e)
  | fTokenType =>
      let '(s, e) := storeString v (fieldName f) (grant_TokenType g) in
      ({| grant_AccessToken := grant_AccessToken g;
          grant_RefreshToken := grant_RefreshToken g; grant_TokenType := s;
          grant_ExpiresIn := grant_ExpiresIn g |}, e)
  | fExpiresIn =>
      let '(n, e) := storeInt v (fieldName f) (grant_ExpiresIn g) in
      ({| grant_AccessToken := grant_AccessToken g;
          grant_RefreshToken := grant_RefreshToken g;
          grant_TokenType := grant_TokenType g; grant_ExpiresIn := n |}, e)
  end.

Fixpoint decodeMembers (ms : list (string * value)) (g : grant)
    (saved : option error) : grant * option error :=
  match ms with
  | [] => (g, saved)
  | (key, v) :: ms' =>
      match lookupField key with
      | Some f =>
          let '(g', e) := storeField f v g in
          decodeMembers ms' g' (saveError saved e)
      | None => decodeMembers ms' g saved
      end
  end.

(** Decoding a whole value into the structure: an object fills the
    fields, [null] leaves them alone, anything else is of the wrong kind. *)
Definition decodeGrant (v : value) (g : grant) : grant * option error :=
  match v with
  | Object ms => decodeMembers ms g None
  | Null => (g, None)
  | _ => (g, Some (UnmarshalTypeError (kindName v) ""))
  end.

(** [json.Unmarshal(data, &grant)]. *)
Definition Unmarshal (data : string) (g : grant) : grant * option error :=
  match parse data with
  | None => (g, Some (SyntaxError "invalid JSON input"))
  | Some v => decodeGrant v g
  end.

(** An [interface{}] handed to [json.Marshal] is represented by what
    [json.Marshal] makes of it: its encoding, or the error for a value
    that has none (a channel, a function, a cyclic structure, ...). *)
Inductive payload :=
| encodable (data : string)
| unencodable (e : error).

Definition Marshal (v : payload) : option string * option error :=
  match v with
  | encodable data => (Some data, None)
  | unencodable e => (None, Some e)
  end.

End json.

(** ** [net/url]: form values and their encoding *)

Module url.

Definition upperhex (n : N) : ascii :=
  (if n <? 10 then ascii_of_N (48 + n) else ascii_of_N (55 + n))%N.

(** [shouldEscape(c, encodeQueryComponent)]: letters, digits and [-_.~]
    pass, every other byte is escaped. *)
Definition shouldEscape (c : ascii) : bool :=
  let b := N_of_ascii c in
  negb (((97 <=? b) && (b <=? 122)) || ((65 <=? b) && (b <=? 90))
        || ((48 <=? b) && (b <=? 57))
        || (b =? 45) || (b =? 95) || (b =? 46) || (b =? 126))%N.

Fixpoint QueryEscape (s : string) : string :=
  match s with
  | EmptyString => EmptyString
  | String c rest =>
      if Ascii.eqb c " " then String "+" (QueryEscape rest)
      else if shouldEscape c then
        String "%"
          (String (upperhex (N_of_ascii c / 16))
             (String (upperhex (N_of_ascii c mod 16)) (QueryEscape rest)))
      else String c (QueryEscape rest)
  end.

(** [url.Values] is [map[string][]string]. *)
Abbreviation Values := (gmap string (list string)).

Fixpoint insertSorted (k : string) (ks : list string) : list string :=
  match ks with
  | [] => [k]
  | k' :: ks' => if String.leb k k' then k :: ks else k' :: insertSorted k ks'
  end.

(** The keys of the map in increasing byte order ([slices.Sort]). *)
Definition sortedKeys (v : Values) : list string :=
  foldr insertSorted [] (map_to_list v).*1.

Definition writePair (keyEscaped : string) (buf v : string) : string :=
  (if isEmpty buf then buf else buf +:+ "&") +:+ keyEscaped +:+ "=" +:+ QueryEscape v.

(** [Values.Encode]: [key=value] pairs joined by [&], keys sorted. *)
Definition Encode (v : Values) : string :=
  fold_left
    (fun buf k => fold_left (writePair (QueryEscape k)) (default [] (v !! k)) buf)
    (sortedKeys v) "".

End url.

(** ** [regexp]: the expression that recognises a filename extension *)

Module regexp.

(** Regular expressions over bytes, with the end-of-text assertion. *)
Inductive re :=
| Void                          (* matches nothing *)
| Eps                           (* the empty string *)
| Class (p : ascii -> bool)     (* one byte of a class *)
| EndText                       (* [$] without the [m] flag *)
| Cat (a b : re)
| Alt (a b : re)
| Star (a : re).

Definition Plus (a : re) : re := Cat a (Star a).

(** Whether [r] accepts the empty string; [atEnd] tells whether the
    position is the end of the text. *)
Fixpoint nullable (atEnd : bool) (r : re) : bool :=
  match r with
  | Void => false
  | Eps => true
  | Class _ => false
  | EndText => atEnd
  | Cat a b => nullable atEnd a && nullable atEnd b
  | Alt a b => nullable atEnd a || nullable atEnd b
  | Star _ => true
  end.

(** Brzozowski derivative: what is left of [r] once [c] is read. *)
Fixpoint deriv (c : ascii) (r : re) : re :=
  match r with
  | Void | Eps | EndText => Void
  | Class p => if p c then Eps else Void
  | Cat a b =>
      if nullable false a then Alt (Cat (deriv c a) b) (deriv c b)
      else Cat (deriv c a) b
  | Alt a b => Alt (deriv c a) (deriv c b)
  | Star a => Cat (deriv c a) (Star a)
  end.

(** [r] matches the whole of [s]. *)
Fixpoint matchAll (r : re) (s : string) : bool :=
  match s with
  | EmptyString => nullable true r
  | String c rest => matchAll (deriv c r) rest
  end.

Definition any : re := Class (fun _ => true).

(** [regexp.Match]: [s] contains a match of [r] somewhere. *)
Definition Match (r : re) (s : string) : bool :=
  matchAll (Cat (Star any) (Cat r (Star any))) s.

Definition isWord (c : ascii) : bool :=
  let b := N_of_ascii c in
  (((97 <=? b) && (b <=? 122)) || ((65 <=? b) && (b <=? 90))
   || ((48 <=? b) && (b <=? 57)) || (b =? 95))%N.

Definition isDot (c : ascii) : bool := Ascii.eqb c ".".

(** The expression ["[^.]+\\.\\w+$"] of [uploadFile].  Go matches it rune
    by rune; since ['.'] and the word characters are ASCII and every
    rune other than ['.'] is in [[^.]], matching byte by byte accepts the
    same filenames. *)
Definition extension : re :=
  Cat (Plus (Class (fun c => negb (isDot c))))
    (Cat (Class isDot) (Cat (Plus (Class isWord)) EndText)).

End regexp.

(** ** [mime/multipart]: the form written by [uploadFile] *)

Module multipart.

Record part := {
  fieldname : string;
  filename : string;
  contentType : string;
  content : string
}.

(** A writer and, through it, the buffer it writes to: the boundary, the
    parts written so far and whether the closing boundary was written. *)
Record Writer := {
  boundary : string;
  parts : list part;
  closed : bool
}.

Definition NewWriter (boundary : string) : Writer :=
  {| boundary := boundary; parts := []; closed := false |}.

Definition CreateFormFile (w : Writer) (fieldname filename : string) : Writer :=
  {| boundary := boundary w;
     parts := (parts w ++ [{| fieldname := fieldname; filename := filename;
                              contentType := "application/octet-stream";
                              content := "" |}])%list;
     closed := closed w |}.

(** [io.Copy] into the part returned by [CreateFormFile]: the data is
    appended to the last part. *)
Fixpoint writeLast (ps : list part) (data : string) : list part :=
  match ps with
  | [] => []
  | [p] => [{| fieldname := fieldname p; filename := filename p;
               contentType := contentType p; content := content p +:+ data |}]
  | p :: ps' => p :: writeLast ps' data
  end.

Definition Copy (w : Writer) (data : string) : Writer :=
  {| boundary := boundary w; parts := writeLast (parts w) data;
     closed := closed w |}.

Definition Close (w : Writer) : Writer :=
  {| boundary := boundary w; parts := parts w; closed := true |}.

Fixpoint ContainsAny (s chars : string) : bool :=
  match s with
  | EmptyString => false
  | String c rest => strings.inCutset c chars || ContainsAny rest chars
  end.

Definition quote : ascii := "034".

(** The characters that force the boundary into quotes: the [tspecials]
    of RFC 2045 and the space. *)
Definition tspecials : string := "()<>@,;:\" +:+ String quote "/[]?= ".

Definition FormDataContentType (w : Writer) : string :=
  let b := boundary w in
  let b := if ContainsAny b tspecials then String quote (b +:+ String quote "") else b in
  "multipart/form-data; boundary=" +:+ b.

End multipart.

(** ** [net/http]: requests, and the network as the program sees it *)

Module http.

(** What a request carries: bytes, or the form a [multipart.Writer]
    wrote into the buffer. *)
Inductive body :=
| raw (data : string)
| form (w : multipart.Writer).

(** [http.Header] is [map[string][]string]. *)
Abbreviation Header := (gmap string (list string)).

Definition Add (key value : string) (h : Header) : Header :=
  <[key := (default [] (h !! key) ++ [value])%list]> h.

Definition Set_ (key value : string) (h : Header) : Header :=
  <[key := [value]]> h.

Record Request := {
  Method : string;
  URL : string;
  Headers : Header;
  Body : body
}.

Definition withHeaders (h : Header) (r : Request) : Request :=
  {| Method := Method r; URL := URL r; Headers := h; Body := Body r |}.

Record Response := {
  StatusCode : Z;
  Status : string;
  ResponseBody : string
}.

(** What [Client.Do] and [http.Post] return: a response or an error. *)
Inductive outcome :=
| responded (res : Response)
| failed (err : error).

(** The world outside the program.  [roundTrip sent req] is the outcome
    of sending [req] after the requests [sent]; [requestError method url]
    is the error, if any, that [http.NewRequest] finds in a method or a
    URL; [randomBoundary sent] is the boundary [multipart.NewWriter]
    draws. *)
Record Env := {
  roundTrip : list Request -> Request -> outcome;
  requestError : string -> string -> option error;
  randomBoundary : list Request -> string
}.

(** Computations that send requests: the state is the list of the
    requests sent so far, oldest first. *)
Definition IO (A : Type) : Type := list Request -> A * list Request.

Definition ret {A} (a : A) : IO A := fun sent => (a, sent).

Definition bind {A B} (m : IO A) (k : A -> IO B) : IO B :=
  fun sent => let '(a, sent') := m sent in k a sent'.

Definition NewRequest (env : Env) (method url : string) (b : body)
  : option Request * option error :=
  let method := if isEmpty method then "GET" else method in
  match requestError env method url with
  | Some e => (None, Some e)
  | None =>
      (Some {| Method := method; URL := url; Headers := ∅; Body := b |}, None)
  end.

(** [(&http.Client{}).Do(req)]. *)
Definition Do (env : Env) (req : Request) : IO outcome :=
  fun sent => (roundTrip env sent req, (sent ++ [req])%list).

(** [http.Post(url, contentType, body)]. *)
Definition Post (env : Env) (url contentType : string) (b : body) : IO outcome :=
  match NewRequest env "POST" url b with
  | (Some req, None) =>
      Do env (withHeaders (Set_ "Content-Type" contentType (Headers req)) req)
  | (_, Some e) => ret (failed e)
  | (None, None) => ret (failed (netError "no request"))
  end.

End http.

#[global] Instance IO_ret : MRet http.IO := @http.ret.
#[global] Instance IO_bind : MBind http.IO := fun A B k m => http.bind m k.

(** ** The parts of the package that are not in [server.go] *)

(** Modelled from the spec: the type [SecretField] is declared elsewhere in
    the package; the spec gives it a slug, a filename and an item value,
    the three fields [uploadFile] reads. *)
Record SecretField := {
  Slug : string;
  Filename : string;
  ItemValue : string
}.

(** Modelled from the spec: the package-level name [resource] that
    [uploadFile] passes to [urlFor] is declared elsewhere in the package;
    the spec has the upload go to [secrets/{id}/fields/{slug}]. *)
Definition resource : string := "secrets".

(** Modelled from the spec: [handleResponse] is the shared response
    handler, declared elsewhere in the package; the spec treats it as
    returning the raw body bytes, the status, and an error for a status
    that is not 2xx.  An error of the HTTP call itself is passed on. *)
Definition handleResponse (o : http.outcome) : string * option Z * option error :=
  match o with
  | http.failed err => ("", None, Some err)
  | http.responded res =>
      if (200 <=? http.StatusCode res) && (http.StatusCode res <? 300)
      then (http.ResponseBody res, Some (http.StatusCode res), None)
      else (http.ResponseBody res, Some (http.StatusCode res),
            Some (errorString (http.Status res)))
  end.

(** ** [getAccessToken], [accessResource], [uploadFile] *)

Section Methods.

Variable env : http.Env.

Definition getAccessToken (s : Server) : http.IO (string * option error) :=
  let cred := Credentials (config s) in
  if negb (isEmpty (AccessToken cred))
  then http.ret (AccessToken cred, None)
  else
    let values : url.Values :=
      {[ "username" := [Username cred];
         "password" := [Password cred];
         "grant_type" := ["password"] ]} in
    let values :=
      if negb (isEmpty (Domain cred))
      then <["domain" := [Domain cred]]> values
      else values in
    let body := http.raw (url.Encode values) in
    o ← http.Post env (urlFor s "token" "") "application/x-www-form-urlencoded" body;
    let '(data, _, err) := handleResponse o in
    match err with
    | Some e => http.ret ("", Some e)
    | None =>
        let '(grant, err) := json.Unmarshal data json.zeroGrant in
        match err with
        | Some e => http.ret ("", Some e)
        | None => http.ret (json.grant_AccessToken grant, None)
        end
    end.

Definition accessResource (s : Server) (method resource path : string)
    (input : option json.payload) : http.IO (string * option error) :=
  if negb (String.eqb resource "secrets" || String.eqb resource "secret-templates")
  then http.ret ("", Some (fmt_errors.Errorf "unknown resource" []))
  else
    let marshaled :=
      match input with
      | Some v =>
          match json.Marshal v with
          | (Some data, None) => (http.raw data, None)
          | (_, Some err) => (http.raw "", Some err)
          | (None, None) => (http.raw "", None)
          end
      | None => (http.raw "", None)
      end in
    match marshaled with
    | (_, Some err) => http.ret ("", Some err)
    | (body, None) =>
        match http.NewRequest env method (urlFor s resource path) body with
        | (_, Some err) => http.ret ("", Some err)
        | (None, None) => http.ret ("", None)
        | (Some req, None) =>
            '(accessToken, err) ← getAccessToken s;
            match err with
            | Some err => http.ret ("", Some err)
            | None =>
                let h := http.Add "Authorization" ("Bearer " +:+ accessToken)
                           (http.Headers req) in
                let h :=
                  if String.eqb method "POST" || String.eqb method "PUT"
                     || String.eqb method "PATCH"
                  then http.Set_ "Content-Type" "application/json" h
                  else h in
                o ← http.Do env (http.withHeaders h req);
                let '(data, _, err) := handleResponse o in
                http.ret (data, err)
            end
        end
    end.

(** The filename given to the form: lines 171 to 178 of [uploadFile]. *)
Definition formFilename (fileField : SecretField) : string :=
  let filename := Filename fileField in
  if isEmpty filename then "File.txt"
  else if negb (regexp.Match regexp.extension filename)
  then filename +:+ ".txt"
  else filename.

Definition uploadFile (s : Server) (secretId : Z) (fileField : SecretField)
  : http.IO (option error) :=
  let path := fmt.Sprintf "%d/fields/%s" [fmt.int secretId; fmt.str (Slug fileField)] in
  '(accessToken, err) ← getAccessToken s;
  match err with
  | Some err => http.ret (Some err)
  | None =>
      fun sent =>
        let multipartWriter := multipart.NewWriter (http.randomBoundary env sent) in
        let filename := formFilename fileField in
        let multipartWriter := multipart.CreateFormFile multipartWriter "file" filename in
        let multipartWriter := multipart.Copy multipartWriter (ItemValue fileField) in
        let multipartWriter := multipart.Close multipartWriter in
        match http.NewRequest env "PUT" (urlFor s resource path)
                (http.form multipartWriter) with
        | (_, Some err) => http.ret (Some err) sent
        | (None, None) => http.ret None sent
        | (Some req, None) =>
            let h := http.Add "Authorization" ("Bearer " +:+ accessToken)
                       (http.Headers req) in
            let h := http.Set_ "Content-Type"
                       (multipart.FormDataContentType multipartWriter) h in
            (o ← http.Do env (http.withHeaders h req);
             let '(_, _, err) := handleResponse o in
             http.ret err) sent
        end
  end.

End Methods.

(** * Definitions used to state the properties *)

(** A string with neither a leading nor a trailing slash. *)
Definition slashFree (s : string) : Prop :=
  strings.HasPrefix s "/" = false /\ strings.HasSuffix s "/" = false.

(** The string [t] is [s] without its leading and trailing slashes. *)
Definition trimmedOf (s t : string) : Prop :=
  (exists n m, s = strings.Repeat "/" n +:+ t +:+ strings.Repeat "/" m)
  /\ slashFree t.

Definition configurationError : error :=
  errorString "either ServerURL or Tenant must be set".

(** The base of every URL, in the spec's words: the server URL if it is
    set, else [https://{tenant}.secretservercloud.{tld}/]. *)
Definition base (serverURL tenant tld : string) : string :=
  if isEmpty serverURL
  then "https://" +:+ tenant +:+ ".secretservercloud." +:+ tld +:+ "/"
  else serverURL.

(** The body of the token request, in the spec's words: the form fields
    [username], [password], [grant_type=password] and, when the credential
    has a domain, [domain]; form-encoded, in the order of the keys. *)
Definition passwordGrantForm (cred : UserCredential) : string :=
  (if isEmpty (Domain cred) then ""
   else "domain=" +:+ url.QueryEscape (Domain cred) +:+ "&")
  +:+ "grant_type=password"
  +:+ "&password=" +:+ url.QueryEscape (Password cred)
  +:+ "&username=" +:+ url.QueryEscape (Username cred).

(** The token request: [POST {base}/{tokenPath}] with that form. *)
Definition tokenRequest (s : Server) : http.Request :=
  {| http.Method := "POST";
     http.URL := urlFor s "token" "";
     http.Headers := {[ "Content-Type" := ["application/x-www-form-urlencoded"] ]};
     http.Body := http.raw (passwordGrantForm (Credentials (config s))) |}.

(** The form of a file upload: one part named ["file"] that holds the item
    value of the field, closed. *)
Definition uploadForm (boundary : string) (fileField : SecretField) : multipart.Writer :=
  {| multipart.boundary := boundary;
     multipart.parts :=
       [ {| multipart.fieldname := "file";
            multipart.filename := formFilename fileField;
            multipart.contentType := "application/octet-stream";
            multipart.content := ItemValue fileField |} ];
     multipart.closed := true |}.

(** The upload request: [PUT {base}/{apiPath}/secrets/{id}/fields/{slug}]
    with the form as body, its content type and the bearer token. *)
Definition uploadRequest (s : Server) (secretId : Z) (fileField : SecretField)
    (boundary accessToken : string) : http.Request :=
  {| http.Method := "PUT";
     http.URL := urlFor s "secrets"
                   (fmt.itoa secretId +:+ "/fields/" +:+ Slug fileField);
     http.Headers :=
       {[ "Authorization" := ["Bearer " +:+ accessToken];
          "Content-Type" :=
            [multipart.FormDataContentType (uploadForm boundary fileField)] ]};
     http.Body := http.form (uploadForm boundary fileField) |}.

Fixpoint allChars (p : ascii -> bool) (w : string) : bool :=
  match w with
  | EmptyString => true
  | String c rest => p c && allChars p rest
  end.

(** A filename with an extension: it ends with a byte other than a dot,
    a dot, and one or more word characters. *)
Definition hasExtension (name : string) : Prop :=
  exists stem c ext,
    name = stem +:+ String c ("." +:+ ext)
    /\ c <> "."%char /\ ext <> "" /\ allChars regexp.isWord ext = true.

(** What an expression matches.  [matches e r w]: [r] matches [w], where
    [e] tells whether [w] ends at the end of the text. *)
Inductive matches : bool -> regexp.re -> string -> Prop :=
| m_eps e : matches e regexp.Eps ""
| m_class e p c : p c = true -> matches e (regexp.Class p) (String c "")
| m_end : matches true regexp.EndText ""
| m_cat e a b w1 w2 :
    matches (e && isEmpty w2) a w1 -> matches e b w2 ->
    matches e (regexp.Cat a b) (w1 +:+ w2)
| m_alt_l e a b w : matches e a w -> matches e (regexp.Alt a b) w
| m_alt_r e a b w : matches e b w -> matches e (regexp.Alt a b) w
| m_star_nil e a : matches e (regexp.Star a) ""
| m_star_cons e a w1 w2 :
    w1 <> "" -> matches (e && isEmpty w2) a w1 -> matches e (regexp.Star a) w2 ->
    matches e (regexp.Star a) (w1 +:+ w2).

(** The request [accessResource] sends for a resource: the method (an
    empty one reads as [GET]), the resource URL, the bearer token, and the
    JSON content type for the methods that write. *)
Definition resourceRequest (s : Server) (method resource path body accessToken : string)
  : http.Request :=
  {| http.Method := if isEmpty method then "GET" else method;
     http.URL := urlFor s resource path;
     http.Headers :=
       if String.eqb method "POST" || String.eqb method "PUT" || String.eqb method "PATCH"
       then {[ "Authorization" := ["Bearer " +:+ accessToken];
               "Content-Type" := ["application/json"] ]}
       else {[ "Authorization" := ["Bearer " +:+ accessToken] ]};
     http.Body := http.raw body |}.

(** The members of a JSON object that decodes into the grant without an
    error and without an access token: no member selects [access_token];
    [refresh_token] and [token_type] are strings or [null]; [expires_in]
    is an integer of 64 bits or [null]; other members are free. *)
Definition grantWithoutToken (ms : list (string * json.value)) : Prop :=
  Forall
    (fun m : string * json.value =>
       match json.lookupField m.1 with
       | None => True
       | Some json.fAccessToken => False
       | Some json.fExpiresIn =>
           m.2 = json.Null
           \/ exists lit n, m.2 = json.Number lit /\ json.ParseInt lit = Some n
       | Some _ => m.2 = json.Null \/ exists t, m.2 = json.Str t
       end)
    ms.

(** A body that decodes into the grant without an error and without an
    access token: [null], which leaves the grant as it is, or an object
    with such members. *)
Definition bodyWithoutToken (v : json.value) : Prop :=
  v = json.Null \/ exists ms, v = json.Object ms /\ grantWithoutToken ms.

(** ** Concrete configurations and networks *)

Module Examples.

Definition globals : Globals :=
  {| DefaultTransport_TLSClientConfig := None; zerolog_GlobalLevel := InfoLevel |}.

Definition password : UserCredential :=
  {| AccessToken := ""; Domain := ""; Username := "u"; Password := "p" |}.

Definition static : UserCredential :=
  {| AccessToken := "s3cr3t"; Domain := "corp"; Username := "u"; Password := "p" |}.

(** [Configuration{Tenant: "acme", Credentials: ...}]. *)
Definition tenant (cred : UserCredential) : Configuration :=
  {| Credentials := cred; ServerURL := ""; TLD := ""; Tenant := "acme";
     apiPathURI := ""; tokenPathURI := ""; TLSClientConfig := None;
     LogLevel_ := LevelInfo |}.

(** A self-hosted server, with slashes around every path. *)
Definition hosted (cred : UserCredential) : Configuration :=
  {| Credentials := cred; ServerURL := "https://h/"; TLD := ""; Tenant := "";
     apiPathURI := "/api/v1"; tokenPathURI := "//oauth2/token/";
     TLSClientConfig := None; LogLevel_ := LevelDebug |}.

(** The server [New] returns for [tenant cred]. *)
Definition acme (cred : UserCredential) : Server :=
  {| config :=
      {| Credentials := cred; ServerURL := ""; TLD := "com"; Tenant := "acme";
         apiPathURI := "api/v1"; tokenPathURI := "oauth2/token";
         TLSClientConfig := None; LogLevel_ := LevelInfo |} |}.

(** JSON text, written with ['] where it has a double quote. *)
Fixpoint quoted (s : string) : string :=
  match s with
  | EmptyString => EmptyString
  | String c rest => String (if Ascii.eqb c "'" then "034"%char else c) (quoted rest)
  end.

(** Three bodies a token endpoint may send with status 200. *)
Definition grant : string := quoted "{'access_token':'T0','expires_in':1200}".
Definition refusal : string := quoted "{'error':'invalid_grant','expires_in':null}".
Definition stringExpiry : string := quoted "{'expires_in':'3600'}".

Definition ok (body : string) : http.outcome :=
  http.responded {| http.StatusCode := 200; http.Status := "200 OK";
                    http.ResponseBody := body |}.

(** A network whose token endpoint answers with [grant] and whose other
    endpoints answer with an empty JSON object. *)
Definition network (grant : string) : http.Env :=
  {| http.roundTrip := fun _ req =>
       if String.eqb (http.URL req) "https://acme.secretservercloud.com/oauth2/token"
       then ok grant else ok "{}";
     http.requestError := fun _ _ => None;
     http.randomBoundary := fun _ => "5f1d0c7e9a3b" |}.

(** A network on which every request fails. *)
Definition offline : http.Env :=
  {| http.roundTrip := fun _ _ => http.failed (netError "dial tcp: connection refused");
     http.requestError := fun _ _ => None;
     http.randomBoundary := fun _ => "5f1d0c7e9a3b" |}.

End Examples.

(** The number of bytes of [s] equal to [c]. *)
Fixpoint countByte (c : ascii) (s : string) : nat :=
  match s with
  | EmptyString => 0%nat
  | String d rest => ((if Ascii.eqb d c then 1 else 0) + countByte c rest)%nat
  end.

(** ** The example program *)

Module main.

(** Lines 12 to 24 of [main]: the access token of [TSS_TOKEN] if there is
    one, else the username and password of the environment.  [Getenv]
    returns the empty string for a variable that is not set. *)
Definition userCredential (Getenv : string -> string) : UserCredential :=
  let accessToken := Getenv "TSS_TOKEN" in
  if isEmpty accessToken
  then {| AccessToken := ""; Domain := "";
          Username := Getenv "TSS_USERNAME"; Password := Getenv "TSS_PASSWORD" |}
  else {| AccessToken := accessToken; Domain := ""; Username := ""; Password := "" |}.

(** Lines 26 to 29 of [main]: the call of [server.New]. *)
Definition newServer (Getenv : string -> string) (g : Globals)
  : (option Server * option error) * Globals :=
  New {| Credentials := userCredential Getenv;
         ServerURL := ""; TLD := ""; Tenant := Getenv "TSS_TENANT";
         apiPathURI := ""; tokenPathURI := ""; TLSClientConfig := None;
         LogLevel_ := 0 |} g.

End main.


(** ** More concrete inputs *)

Module MoreExamples.

(** A credential whose fields hold the separators of a form. *)
Definition hostile : UserCredential :=
  {| AccessToken := ""; Domain := "";
     Username := "u&grant_type=refresh_token"; Password := "p=&%26" |}.

(** A path of two lines: it holds a line feed. *)
Definition twoLines : string := "a" +:+ String "010" "b".

(** A network whose [http.NewRequest] refuses a URL that holds a line
    feed, as [url.Parse] refuses control characters. *)
Definition strict : http.Env :=
  {| http.roundTrip := fun _ _ => Examples.ok "{}";
     http.requestError := fun _ url =>
       if multipart.ContainsAny url (String "010" "")
       then Some (netError "net/url: invalid control character in URL")
       else None;
     http.randomBoundary := fun _ => "5f1d0c7e9a3b" |}.

(** [json.Valid]: whether the input is JSON that [encoding/json] accepts. *)
Definition Valid (data : string) : bool :=
  match json.parse data with
  | Some _ => true
  | None => false
  end.

(** [n] arrays, one inside the other. *)
Definition nested (n : N) : string :=
  strings.Repeat "[" (N.to_nat n) +:+ strings.Repeat "]" (N.to_nat n).

(** An environment for the example program; [token] is [TSS_TOKEN]. *)
Definition environ (token name : string) : string :=
  if String.eqb name "TSS_TOKEN" then token
  else if String.eqb name "TSS_USERNAME" then "u"
  else if String.eqb name "TSS_PASSWORD" then "p"
  else if String.eqb name "TSS_TENANT" then "acme"
  else "".

End MoreExamples.

(** * Properties *)

(** ** Trimming slashes *)

Section Trim.

Lemma append_nil_r (s : string) : s +:+ "" = s.
Proof. induction s as [|c s IH]; simpl; [reflexivity | now rewrite IH]. Qed.

Lemma append_assoc (a b c : string) : (a +:+ b) +:+ c = a +:+ (b +:+ c).
Proof. induction a as [|x a IH]; simpl; [reflexivity | now rewrite IH]. Qed.

Lemma inCutset_slash (c : ascii) : strings.inCutset c "/" = Ascii.eqb c "/".
Proof. simpl. apply orb_false_r. Qed.

Lemma TrimLeft_cons (c : ascii) (s : string) :
  strings.TrimLeft (String c s) "/"
  = if Ascii.eqb c "/" then strings.TrimLeft s "/" else String c s.
Proof. simpl. now rewrite orb_false_r. Qed.

Lemma TrimRight_cons (c : ascii) (s : string) :
  strings.TrimRight (String c s) "/"
  = match strings.TrimRight s "/" with
    | EmptyString => if Ascii.eqb c "/" then EmptyString else String c EmptyString
    | rest' => String c rest'
    end.
Proof. simpl. now rewrite orb_false_r. Qed.

Lemma HasPrefix_slash (c : ascii) (s : string) :
  strings.HasPrefix (String c s) "/" = Ascii.eqb c "/".
Proof.
  unfold strings.HasPrefix.
  change (String.prefix "/" (String c s))
    with (if ascii_dec "/" c then String.prefix "" s else false).
  destruct (ascii_dec "/" c) as [<-|Hne].
  - destruct s; reflexivity.
  - symmetry. apply Ascii.eqb_neq. congruence.
Qed.

Lemma HasSuffix_cons (c : ascii) (s : string) :
  strings.HasSuffix (String c s) "/" = false ->
  strings.HasSuffix s "/" = false.
Proof. simpl. intros H. apply orb_false_iff in H. tauto. Qed.

(** [TrimLeft] removes a run of leading slashes and nothing else. *)
Lemma TrimLeft_slash (s : string) :
  exists n, s = strings.Repeat "/" n +:+ strings.TrimLeft s "/"
            /\ strings.HasPrefix (strings.TrimLeft s "/") "/" = false.
Proof.
  induction s as [|c s [n [Hs Hp]]].
  - exists 0%nat. split; reflexivity.
  - rewrite TrimLeft_cons.
    destruct (Ascii.eqb_spec c "/") as [->|Hne].
    + exists (S n). split; [|exact Hp]. simpl. now rewrite <- Hs.
    + exists 0%nat. split; [reflexivity|].
      rewrite HasPrefix_slash. now apply Ascii.eqb_neq.
Qed.

(** [TrimRight] removes a run of trailing slashes and nothing else. *)
Lemma TrimRight_slash (s : string) :
  exists m, s = strings.TrimRight s "/" +:+ strings.Repeat "/" m
            /\ strings.HasSuffix (strings.TrimRight s "/") "/" = false.
Proof.
  induction s as [|c s [m [Hs Hp]]].
  - exists 0%nat. split; reflexivity.
  - rewrite TrimRight_cons.
    destruct (strings.TrimRight s "/") as [|a t] eqn:Ht.
    + destruct (Ascii.eqb_spec c "/") as [->|Hne].
      * exists (S m). split; [|reflexivity]. simpl in *. now rewrite <- Hs.
      * exists m. split; [simpl in *; now rewrite <- Hs|].
        simpl. rewrite orb_false_r.
        destruct (Ascii.eqb_spec c "/"); [contradiction|reflexivity].
    + exists m. split; [simpl in *; now rewrite <- Hs|].
      change (strings.HasSuffix (String c (String a t)) "/")
        with ((String c (String a t) =? "/")%string || strings.HasSuffix (String a t) "/").
      rewrite Hp, orb_false_r. simpl.
      destruct (Ascii.eqb c "/"); reflexivity.
Qed.

Lemma TrimLeft_keeps_suffix (s : string) :
  strings.HasSuffix s "/" = false ->
  strings.HasSuffix (strings.TrimLeft s "/") "/" = false.
Proof.
  induction s as [|c s IH]; intros H; [reflexivity|].
  rewrite TrimLeft_cons.
  destruct (Ascii.eqb c "/"); [|exact H].
  apply IH. now apply HasSuffix_cons in H.
Qed.

Lemma TrimLeft_id (s : string) :
  strings.HasPrefix s "/" = false -> strings.TrimLeft s "/" = s.
Proof.
  destruct s as [|c s]; [reflexivity|].
  rewrite HasPrefix_slash. rewrite TrimLeft_cons.
  now intros ->.
Qed.

Lemma TrimRight_id (s : string) :
  strings.HasSuffix s "/" = false -> strings.TrimRight s "/" = s.
Proof.
  induction s as [|c s IH]; intros H; [reflexivity|].
  rewrite TrimRight_cons.
  rewrite (IH (HasSuffix_cons _ _ H)).
  destruct s as [|a t]; [|reflexivity].
  simpl in H. rewrite orb_false_r in H.
  destruct (Ascii.eqb c "/"); [discriminate|reflexivity].
Qed.


Lemma Trim_slash (s : string) : trimmedOf s (strings.Trim s "/").
Proof.
  unfold trimmedOf, slashFree, strings.Trim.
  destruct (TrimRight_slash s) as [m [Hs Hsuf]].
  destruct (TrimLeft_slash (strings.TrimRight s "/")) as [n [Hr Hpre]].
  split; [|split; [exact Hpre | now apply TrimLeft_keeps_suffix]].
  exists n, m. rewrite <- append_assoc, <- Hr. exact Hs.
Qed.

Lemma Trim_idempotent (s : string) :
  strings.Trim (strings.Trim s "/") "/" = strings.Trim s "/".
Proof.
  destruct (Trim_slash s) as [_ [Hp Hs]].
  unfold strings.Trim at 1. rewrite (TrimRight_id _ Hs). now apply TrimLeft_id.
Qed.

End Trim.

(** ** Client construction *)


Lemma isEmpty_true (s : string) : isEmpty s = true <-> s = "".
Proof. apply String.eqb_eq. Qed.

Lemma isEmpty_false (s : string) : isEmpty s = false <-> s <> "".
Proof. apply String.eqb_neq. Qed.

(** C1. [New] returns the configuration error exactly when [ServerURL] and
    [Tenant] are both empty or both non-empty, and returns a [Server]
    (and no error) exactly when one of the two is non-empty and the other
    is empty. *)
Theorem New_configuration_error (c : Configuration) (g : Globals) :
  ((New c g).1 = (None, Some configurationError)
   <-> (ServerURL c = "" /\ Tenant c = "") \/ (ServerURL c <> "" /\ Tenant c <> ""))
  /\ ((exists s, (New c g).1 = (Some s, None))
      <-> (ServerURL c <> "" /\ Tenant c = "") \/ (ServerURL c = "" /\ Tenant c <> "")).
Proof.
  unfold New.
  destruct (isEmpty (ServerURL c)) eqn:Hs; destruct (isEmpty (Tenant c)) eqn:Ht;
    simpl;
    repeat match goal with
      | H : isEmpty _ = true |- _ => apply isEmpty_true in H
      | H : isEmpty _ = false |- _ => apply isEmpty_false in H
      end.
  - split; split; intros H; try tauto; try reflexivity.
    destruct H as [s H]. discriminate.
  - split; split; intros H; try tauto; try discriminate. eauto.
  - split; split; intros H; try tauto; try discriminate. eauto.
  - split; split; intros H; try tauto; try reflexivity.
    destruct H as [s H]. discriminate.
Qed.

(** What [New] leaves in the server it returns. *)
Lemma New_fields (c : Configuration) (g g' : Globals) (s : Server) :
  New c g = ((Some s, None), g') ->
  Credentials (config s) = Credentials c
  /\ ServerURL (config s) = ServerURL c
  /\ Tenant (config s) = Tenant c
  /\ TLD (config s) = (if isEmpty (TLD c) then "com" else TLD c)
  /\ apiPathURI (config s)
     = strings.Trim (if isEmpty (apiPathURI c) then "/api/v1" else apiPathURI c) "/"
  /\ tokenPathURI (config s)
     = strings.Trim (if isEmpty (tokenPathURI c) then "/oauth2/token"
                     else tokenPathURI c) "/".
Proof.
  intros HNew. unfold New in HNew.
  destruct (isEmpty (ServerURL c) && isEmpty (Tenant c)
            || negb (isEmpty (ServerURL c)) && negb (isEmpty (Tenant c)));
    [discriminate|].
  injection HNew as <- _.
  destruct (isEmpty (TLD c)); cbn [set_TLD apiPathURI];
    destruct (isEmpty (apiPathURI c));
    cbn [set_apiPathURI set_TLD tokenPathURI apiPathURI];
    destruct (isEmpty (tokenPathURI c)); repeat split.
Qed.

(** ** URL resolution *)


Lemma urlFor_other_eq (s : Server) (resource path : string) :
  resource <> "token" ->
  urlFor s resource path
  = strings.Trim (base (ServerURL (config s)) (Tenant (config s)) (TLD (config s))) "/"
    +:+ "/" +:+ strings.Trim (apiPathURI (config s)) "/"
    +:+ "/" +:+ strings.Trim resource "/"
    +:+ "/" +:+ strings.Trim path "/".
Proof.
  intros Hne. unfold urlFor, base.
  apply String.eqb_neq in Hne. rewrite Hne.
  destruct (isEmpty (ServerURL (config s))); simpl; now rewrite append_nil_r.
Qed.

Lemma urlFor_grant_eq (s : Server) (path : string) :
  urlFor s "token" path
  = strings.Trim (base (ServerURL (config s)) (Tenant (config s)) (TLD (config s))) "/"
    +:+ "/" +:+ strings.Trim (tokenPathURI (config s)) "/".
Proof.
  unfold urlFor, base.
  destruct (isEmpty (ServerURL (config s))); simpl; now rewrite append_nil_r.
Qed.

(** C2. For a resource other than ["token"], [urlFor] is the base, the API
    path, the resource and the path, each without its leading and trailing
    slashes, joined by single slashes; with API path ["/api/v1"] and
    server URL ["https://h/"], [urlFor("secrets", "5/fields/x")] is
    ["https://h/api/v1/secrets/5/fields/x"]. *)
Theorem urlFor_resource :
  (forall (s : Server) (resource path : string),
      resource <> "token" ->
      exists b a r p,
        trimmedOf (base (ServerURL (config s)) (Tenant (config s)) (TLD (config s))) b
        /\ trimmedOf (apiPathURI (config s)) a
        /\ trimmedOf resource r
        /\ trimmedOf path p
        /\ urlFor s resource path = b +:+ "/" +:+ a +:+ "/" +:+ r +:+ "/" +:+ p)
  /\ (forall s : Server,
         ServerURL (config s) = "https://h/" ->
         apiPathURI (config s) = "/api/v1" ->
         urlFor s "secrets" "5/fields/x" = "https://h/api/v1/secrets/5/fields/x").
Proof.
  split.
  - intros s resource path Hne.
    eexists _, _, _, _. repeat split; try apply Trim_slash.
    now apply urlFor_other_eq.
  - intros s Hs Ha. rewrite urlFor_other_eq by discriminate.
    rewrite Hs, Ha. reflexivity.
Qed.

(** C3. For a server built by [New], [urlFor("token", "")] is the base and
    the token path, each without its leading and trailing slashes, joined
    by one slash: the slash of the join has no slash next to it, however
    many slashes the base URL and the token path begin or end with.  The
    base is the server URL if set, else
    [https://{tenant}.secretservercloud.{tld}/] with ["com"] for an empty
    TLD; the token path is ["/oauth2/token"] unless configured. *)
Theorem urlFor_token (c : Configuration) (g g' : Globals) (s : Server) :
  New c g = ((Some s, None), g') ->
  exists b t,
    trimmedOf (base (ServerURL c) (Tenant c) (if isEmpty (TLD c) then "com" else TLD c)) b
    /\ trimmedOf (if isEmpty (tokenPathURI c) then "/oauth2/token" else tokenPathURI c) t
    /\ urlFor s "token" "" = b +:+ "/" +:+ t.
Proof.
  intros HNew.
  destruct (New_fields _ _ _ _ HNew) as (_ & Hs & Hten & Htld & _ & Htok).
  eexists _, _. split; [apply Trim_slash|]. split; [apply Trim_slash|].
  rewrite urlFor_grant_eq, Hs, Hten, Htld, Htok.
  now rewrite Trim_idempotent.
Qed.


Lemma urlFor_resource_witness :
  "secrets" <> "token"
  /\ exists b a r p,
      trimmedOf "https://h/" b /\ trimmedOf "/api/v1" a
      /\ trimmedOf "secrets" r /\ trimmedOf "5/fields/x" p
      /\ urlFor {| config := Examples.hosted Examples.password |} "secrets" "5/fields/x"
         = b +:+ "/" +:+ a +:+ "/" +:+ r +:+ "/" +:+ p.
Proof.
  split; [discriminate|].
  apply (proj1 urlFor_resource {| config := Examples.hosted Examples.password |}
           "secrets" "5/fields/x").
  discriminate.
Defined.

Lemma urlFor_token_witness :
  New (Examples.hosted Examples.password) Examples.globals
  = ((Some {| config :=
               {| Credentials := Examples.password; ServerURL := "https://h/";
                  TLD := "com"; Tenant := ""; apiPathURI := "api/v1";
                  tokenPathURI := "oauth2/token"; TLSClientConfig := None;
                  LogLevel_ := LevelDebug |} |}, None),
     {| DefaultTransport_TLSClientConfig := None; zerolog_GlobalLevel := DebugLevel |})
  /\ exists b t,
      trimmedOf "https://h/" b /\ trimmedOf "//oauth2/token/" t
      /\ urlFor {| config :=
                    {| Credentials := Examples.password; ServerURL := "https://h/";
                       TLD := "com"; Tenant := ""; apiPathURI := "api/v1";
                       tokenPathURI := "oauth2/token"; TLSClientConfig := None;
                       LogLevel_ := LevelDebug |} |} "token" ""
         = b +:+ "/" +:+ t.
Proof.
  split; [reflexivity|].
  exact (urlFor_token (Examples.hosted Examples.password) Examples.globals _ _ eq_refl).
Defined.

(** ** Worked examples *)

Example New_tenant (cred : UserCredential) :
  New (Examples.tenant cred) Examples.globals
  = ((Some (Examples.acme cred), None), Examples.globals).
Proof. reflexivity. Qed.

Example New_neither :
  (New {| Credentials := Examples.password; ServerURL := ""; TLD := ""; Tenant := "";
          apiPathURI := ""; tokenPathURI := ""; TLSClientConfig := None;
          LogLevel_ := LevelInfo |} Examples.globals).1
  = (None, Some configurationError).
Proof. reflexivity. Qed.

Example acme_token_url :
  urlFor (Examples.acme Examples.password) "token" ""
  = "https://acme.secretservercloud.com/oauth2/token".
Proof. reflexivity. Qed.

Example acme_secret_url :
  urlFor (Examples.acme Examples.password) "secrets" "1"
  = "https://acme.secretservercloud.com/api/v1/secrets/1".
Proof. reflexivity. Qed.


(** ** Resource access and token acquisition: the early returns *)

Section EarlyReturns.

Variable env : http.Env.

(** C4. With a resource that is neither ["secrets"] nor
    ["secret-templates"], [accessResource] returns the error
    ["unknown resource"] and sends no request: the list of requests
    sent is unchanged, so no token request was made either. *)
Theorem accessResource_unknown_resource
    (s : Server) (method resource path : string)
    (input : option json.payload) (sent : list http.Request) :
  resource <> "secrets" -> resource <> "secret-templates" ->
  accessResource env s method resource path input sent
  = (("", Some (errorString "unknown resource")), sent).
Proof.
  intros H1 H2. unfold accessResource.
  apply String.eqb_neq in H1, H2. rewrite H1, H2. reflexivity.
Qed.

(** C5. With a non-empty static [AccessToken], [getAccessToken] returns
    that token, with no error and without sending a request, whatever
    the username, password and domain of the credential. *)
Theorem getAccessToken_static (s : Server) (sent : list http.Request) :
  AccessToken (Credentials (config s)) <> "" ->
  getAccessToken env s sent
  = ((AccessToken (Credentials (config s)), None), sent).
Proof.
  intros H. unfold getAccessToken.
  apply isEmpty_false in H. rewrite H. reflexivity.
Qed.

(** C10. For a known resource and a payload that [json.Marshal] cannot
    encode, [accessResource] returns the error of [json.Marshal] and
    sends no request: neither the token endpoint nor the resource
    endpoint is contacted. *)
Theorem accessResource_marshal_error
    (s : Server) (method resource path : string) (v : json.payload)
    (data : option string) (err : error) (sent : list http.Request) :
  resource = "secrets" \/ resource = "secret-templates" ->
  json.Marshal v = (data, Some err) ->
  accessResource env s method resource path (Some v) sent
  = (("", Some err), sent).
Proof.
  intros Hres Hm. unfold accessResource.
  assert (String.eqb resource "secrets" || String.eqb resource "secret-templates" = true)
    as -> by (destruct Hres as [-> | ->]; reflexivity).
  simpl. rewrite Hm. destruct data; reflexivity.
Qed.

End EarlyReturns.

Lemma accessResource_unknown_resource_witness :
  "unknown-thing" <> "secrets" /\ "unknown-thing" <> "secret-templates"
  /\ accessResource Examples.offline (Examples.acme Examples.password)
       "GET" "unknown-thing" "1" None []
     = (("", Some (errorString "unknown resource")), []).
Proof.
  split; [discriminate|]. split; [discriminate|].
  apply (accessResource_unknown_resource Examples.offline
           (Examples.acme Examples.password) "GET" "unknown-thing" "1" None []);
    discriminate.
Defined.

Lemma getAccessToken_static_witness :
  AccessToken (Credentials (config (Examples.acme Examples.static))) <> ""
  /\ getAccessToken Examples.offline (Examples.acme Examples.static) []
     = (("s3cr3t", None), []).
Proof.
  split; [discriminate|].
  apply (getAccessToken_static Examples.offline (Examples.acme Examples.static) []).
  discriminate.
Defined.

Lemma accessResource_marshal_error_witness :
  json.Marshal (json.unencodable (MarshalError "json: unsupported type: chan int"))
  = (None, Some (MarshalError "json: unsupported type: chan int"))
  /\ accessResource (Examples.network "{}") (Examples.acme Examples.password)
       "POST" "secrets" "" 
       (Some (json.unencodable (MarshalError "json: unsupported type: chan int"))) []
     = (("", Some (MarshalError "json: unsupported type: chan int")), []).
Proof.
  split; [reflexivity|].
  apply (accessResource_marshal_error (Examples.network "{}")
           (Examples.acme Examples.password) "POST" "secrets" ""
           (json.unencodable (MarshalError "json: unsupported type: chan int"))
           None (MarshalError "json: unsupported type: chan int") []).
  - left. reflexivity.
  - reflexivity.
Defined.


(** ** Token acquisition with a username and a password *)

#[local] Set Warnings "-clear-no-such-hyp".

Lemma sortedKeys_nodomain (cred : UserCredential) :
  url.sortedKeys
    ({[ "username" := [Username cred]; "password" := [Password cred];
        "grant_type" := ["password"] ]} : url.Values)
  = ["grant_type"; "password"; "username"]%list.
Proof. vm_compute. reflexivity. Qed.
Lemma sortedKeys_domain (cred : UserCredential) :
  url.sortedKeys
    (<["domain" := [Domain cred]]>
       ({[ "username" := [Username cred]; "password" := [Password cred];
           "grant_type" := ["password"] ]} : url.Values))
  = ["domain"; "grant_type"; "password"; "username"]%list.
Proof. vm_compute. reflexivity. Qed.
Lemma Encode_passwordGrant (cred : UserCredential) :
  url.Encode
    (if negb (isEmpty (Domain cred))
     then <["domain" := [Domain cred]]>
            ({[ "username" := [Username cred]; "password" := [Password cred];
                "grant_type" := ["password"] ]} : url.Values)
     else {[ "username" := [Username cred]; "password" := [Password cred];
             "grant_type" := ["password"] ]})
  = passwordGrantForm cred.
Proof.
  unfold passwordGrantForm, url.Encode.
  destruct (isEmpty (Domain cred)); cbn [negb].
  - rewrite sortedKeys_nodomain. cbn [fold_left].
    simplify_map_eq. unfold url.writePair. simpl.
    rewrite !append_assoc. reflexivity.
  - rewrite sortedKeys_domain. cbn [fold_left].
    simplify_map_eq. unfold url.writePair. simpl.
    repeat (rewrite !append_assoc; simpl). reflexivity.
Qed.

Lemma Post_token (env : http.Env) (s : Server) (b : http.body) (sent : list http.Request) :
  http.Post env (urlFor s "token" "") "application/x-www-form-urlencoded" b sent
  = match http.requestError env "POST" (urlFor s "token" "") with
    | Some e => (http.failed e, sent)
    | None =>
        let req := {| http.Method := "POST"; http.URL := urlFor s "token" "";
                      http.Headers := {[ "Content-Type" := ["application/x-www-form-urlencoded"] ]};
                      http.Body := b |} in
        (http.roundTrip env sent req, (sent ++ [req])%list)
    end.
Proof.
  unfold http.Post, http.NewRequest. cbn [isEmpty String.eqb].
  change (isEmpty "POST") with false. cbv iota.
  destruct (http.requestError env "POST" (urlFor s "token" "")); [reflexivity|].
  unfold http.Do, http.withHeaders, http.Set_. cbn.
  now rewrite insert_empty.
Qed.

(** C6. Without a static access token, [getAccessToken] returns an error
    exactly when the POST to the token endpoint fails (the request cannot
    be built, the transport fails or the status is not 2xx) or the
    response body does not unmarshal into a grant; it then returns the
    empty token, and otherwise the access token of the grant.  It sends
    nothing but the token request, whose body is the form with
    [username], [password], [grant_type=password] and, only for a
    non-empty domain, [domain]. *)
Theorem getAccessToken_password_grant
    (env : http.Env) (s : Server) (sent : list http.Request) :
  AccessToken (Credentials (config s)) = "" ->
  let post :=
    http.Post env (urlFor s "token" "") "application/x-www-form-urlencoded"
      (http.raw (passwordGrantForm (Credentials (config s)))) sent in
  let response := handleResponse post.1 in
  let parsed := json.Unmarshal response.1.1 json.zeroGrant in
  let result := getAccessToken env s sent in
  (is_Some result.1.2 <-> is_Some response.2 \/ is_Some parsed.2)
  /\ (is_Some result.1.2 -> result.1.1 = "")
  /\ (result.1.2 = None -> result.1.1 = json.grant_AccessToken parsed.1)
  /\ result.2 = post.2
  /\ post.2 = match http.requestError env "POST" (urlFor s "token" "") with
              | Some _ => sent
              | None => (sent ++ [tokenRequest s])%list
              end.
Proof.
  intros Htok. cbv zeta.
  unfold getAccessToken.
  apply isEmpty_true in Htok. rewrite Htok. cbn [negb].
  rewrite Encode_passwordGrant.
  unfold mbind, IO_bind, http.bind.
  rewrite Post_token.
  destruct (http.requestError env "POST" (urlFor s "token" "")) as [e|].
  - cbn. unfold is_Some. naive_solver.
  - cbv zeta. fold (tokenRequest s). cbn [fst snd].
    destruct (handleResponse (http.roundTrip env sent (tokenRequest s)))
      as [[data st] [e|]]; cbn [fst snd].
    + cbn. unfold is_Some. naive_solver.
    + destruct (json.Unmarshal data json.zeroGrant) as [g [e|]]; cbn;
        unfold is_Some; naive_solver.
Qed.

Lemma getAccessToken_password_grant_witness :
  AccessToken (Credentials (config (Examples.acme Examples.password))) = ""
  /\ (getAccessToken (Examples.network Examples.grant)
        (Examples.acme Examples.password) []).2
     = [tokenRequest (Examples.acme Examples.password)].
Proof.
  split; [reflexivity|].
  destruct (getAccessToken_password_grant
              (Examples.network Examples.grant)
              (Examples.acme Examples.password) [] eq_refl)
    as (_ & _ & _ & Hsent & Hpost).
  exact (eq_trans Hsent Hpost).
Defined.

Example getAccessToken_granted :
  getAccessToken (Examples.network Examples.grant)
    (Examples.acme Examples.password) []
  = (("T0", None), [tokenRequest (Examples.acme Examples.password)]).
Proof. vm_compute. reflexivity. Qed.

Example getAccessToken_offline :
  getAccessToken Examples.offline (Examples.acme Examples.password) []
  = (("", Some (netError "dial tcp: connection refused")),
     [tokenRequest (Examples.acme Examples.password)]).
Proof. vm_compute. reflexivity. Qed.

Example tokenRequest_body :
  http.Body (tokenRequest (Examples.acme Examples.static))
  = http.raw "domain=corp&grant_type=password&password=p&username=u"
  /\ http.Body (tokenRequest (Examples.acme Examples.password))
     = http.raw "grant_type=password&password=p&username=u".
Proof. split; reflexivity. Qed.

(** ** The filename of an uploaded file *)

Lemma append_eq_nil (a b : string) : a +:+ b = "" -> a = "" /\ b = "".
Proof. destruct a; simpl; [auto | discriminate]. Qed.

Lemma nullable_matches (e : bool) (r : regexp.re) :
  regexp.nullable e r = true <-> matches e r "".
Proof.
  split.
  - revert e. induction r; intros e H; simpl in H; try discriminate.
    + constructor.
    + subst e. constructor.
    + apply andb_true_iff in H as [H1 H2].
      change "" with ("" +:+ ""). constructor; [|auto].
      change (isEmpty "") with true. rewrite andb_true_r. auto.
    + apply orb_true_iff in H as [H|H]; [apply m_alt_l | apply m_alt_r]; auto.
    + constructor.
  - intros H. remember "" as w eqn:Hw. induction H; simpl; auto; try discriminate.
    + apply append_eq_nil in Hw as [-> ->].
      change (isEmpty "") with true in IHmatches1. rewrite andb_true_r in IHmatches1.
      rewrite IHmatches1, IHmatches2; auto.
    + rewrite IHmatches; auto.
    + rewrite IHmatches; auto. apply orb_true_r.
Qed.

Lemma matches_deriv (e : bool) (r : regexp.re) (s : string) :
  matches e r s ->
  forall (c : ascii) (w : string), s = String c w -> matches e (regexp.deriv c r) w.
Proof.
  induction 1 as [e|e p c' Hp| |e a b w1 w2 Ha IHa Hb IHb|e a b w0 Ha IHa
                  |e a b w0 Hb IHb|e a|e a w1 w2 Hne Ha IHa Hs IHs];
    intros c w Hs'; simpl; try discriminate.
  - injection Hs' as -> <-. rewrite Hp. constructor.
  - destruct w1 as [|c1 w1'].
    + simpl in Hs'. subst w2. change (isEmpty (String c w)) with false in Ha.
      rewrite andb_false_r in Ha. apply nullable_matches in Ha. rewrite Ha.
      apply m_alt_r. now apply IHb.
    + simpl in Hs'. injection Hs' as -> <-.
      assert (Hc : matches e (regexp.Cat (regexp.deriv c a) b) (w1' +:+ w2))
        by (constructor; [now apply IHa | assumption]).
      destruct (regexp.nullable false a); [now apply m_alt_l | assumption].
  - apply m_alt_l. now apply IHa.
  - apply m_alt_r. now apply IHb.
  - destruct w1 as [|c1 w1']; [contradiction|].
    simpl in Hs'. injection Hs' as -> <-.
    constructor; [now apply IHa | assumption].
Qed.

Lemma deriv_matches (r : regexp.re) :
  forall (e : bool) (c : ascii) (w : string),
    matches e (regexp.deriv c r) w -> matches e r (String c w).
Proof.
  induction r as [| |p| |a IHa b IHb|a IHa b IHb|a IHa]; intros e c w H; simpl in H.
  - inversion H.
  - inversion H.
  - destruct (p c) eqn:Hp; inversion H; subst. now constructor.
  - inversion H.
  - assert (Hcat : forall w', matches e (regexp.Cat (regexp.deriv c a) b) w' ->
                          matches e (regexp.Cat a b) (String c w')).
    { intros w' H'. inversion H' as [| | |e' a' b' w1 w2 H1 H2| | | |]; subst.
      change (String c (w1 +:+ w2)) with (String c w1 +:+ w2).
      constructor; [now apply IHa | assumption]. }
    destruct (regexp.nullable false a) eqn:Hn; [|now apply Hcat].
    inversion H as [| | | |e' a' b' w' H'|e' a' b' w' H'| |]; subst; [now apply Hcat|].
    change (String c w) with ("" +:+ String c w). constructor; [|now apply IHb].
    change (isEmpty (String c w)) with false. rewrite andb_false_r.
    now apply nullable_matches.
  - inversion H; subst; [apply m_alt_l; now apply IHa | apply m_alt_r; now apply IHb].
  - inversion H as [| | |e' a' b' w1 w2 H1 H2| | | |]; subst.
    change (String c (w1 +:+ w2)) with (String c w1 +:+ w2).
    constructor; [discriminate | now apply IHa | assumption].
Qed.

Lemma matchAll_matches (s : string) :
  forall r : regexp.re, regexp.matchAll r s = true <-> matches true r s.
Proof.
  induction s as [|c s IH]; intros r; simpl.
  - apply nullable_matches.
  - rewrite IH. split; [apply deriv_matches | intros H; now apply (matches_deriv _ _ _ H)].
Qed.

Lemma matches_cat_inv (e : bool) (a b : regexp.re) (w : string) :
  matches e (regexp.Cat a b) w ->
  exists w1 w2, w = w1 +:+ w2 /\ matches (e && isEmpty w2) a w1 /\ matches e b w2.
Proof. inversion 1; subst; eauto. Qed.

Lemma matches_class_inv (e : bool) (p : ascii -> bool) (w : string) :
  matches e (regexp.Class p) w -> exists c, w = String c "" /\ p c = true.
Proof. inversion 1; subst; eauto. Qed.

Lemma matches_end_inv (e : bool) (w : string) :
  matches e regexp.EndText w -> w = "" /\ e = true.
Proof. inversion 1; subst; eauto. Qed.

Lemma matches_star_any (w : string) : forall e : bool, matches e (regexp.Star regexp.any) w.
Proof.
  induction w as [|c w IH]; intros e; [constructor|].
  change (String c w) with (String c "" +:+ w).
  constructor; [discriminate | now constructor | apply IH].
Qed.

Lemma matches_star_class (p : ascii -> bool) (w : string) :
  allChars p w = true -> forall e : bool, matches e (regexp.Star (regexp.Class p)) w.
Proof.
  induction w as [|c w IH]; intros H e; [constructor|].
  simpl in H. apply andb_true_iff in H as [Hc Hw].
  change (String c w) with (String c "" +:+ w).
  constructor; [discriminate | now constructor | now apply IH].
Qed.

Lemma matches_star_class_inv (e : bool) (p : ascii -> bool) (w : string) :
  matches e (regexp.Star (regexp.Class p)) w -> allChars p w = true.
Proof.
  intros H. remember (regexp.Star (regexp.Class p)) as r eqn:Hr.
  induction H; try discriminate; [reflexivity|].
  injection Hr as ->.
  apply matches_class_inv in H0 as [c [-> Hc]].
  simpl. rewrite Hc. now apply IHmatches2.
Qed.

Lemma matches_plus_class (p : ascii -> bool) (w : string) (e : bool) :
  matches e (regexp.Plus (regexp.Class p)) w <-> w <> "" /\ allChars p w = true.
Proof.
  unfold regexp.Plus. split.
  - intros H. apply matches_cat_inv in H as (w1 & w2 & -> & H1 & H2).
    apply matches_class_inv in H1 as [c [-> Hc]].
    apply matches_star_class_inv in H2.
    split; [discriminate|]. simpl. now rewrite Hc.
  - intros [Hne H]. destruct w as [|c w]; [contradiction|].
    simpl in H. apply andb_true_iff in H as [Hc Hw].
    change (String c w) with (String c "" +:+ w).
    constructor; [now constructor | now apply matches_star_class].
Qed.

Lemma allChars_last (p : ascii -> bool) (w : string) :
  w <> "" -> allChars p w = true ->
  exists u c, w = u +:+ String c "" /\ p c = true.
Proof.
  induction w as [|c w IH]; intros Hne H; [contradiction|].
  simpl in H. apply andb_true_iff in H as [Hc Hw].
  destruct w as [|c' w'].
  - exists "", c. split; [reflexivity | assumption].
  - destruct (IH ltac:(discriminate) Hw) as (u & x & Hu & Hx).
    exists (String c u), x. split; [|assumption]. simpl. now rewrite <- Hu.
Qed.

Lemma isDot_true (c : ascii) : regexp.isDot c = true <-> c = "."%char.
Proof. apply Ascii.eqb_eq. Qed.

(** The filenames the expression of [uploadFile] matches: those that end
    with a byte other than a dot, a dot, and one or more word characters. *)
Lemma Match_extension (name : string) :
  regexp.Match regexp.extension name = true <-> hasExtension name.
Proof.
  unfold regexp.Match, hasExtension. rewrite matchAll_matches. split.
  - intros H.
    apply matches_cat_inv in H as (w1 & w23 & -> & _ & H).
    apply matches_cat_inv in H as (w2 & w3 & -> & H & _).
    unfold regexp.extension in H.
    apply matches_cat_inv in H as (u & r1 & -> & Hu & H).
    apply matches_cat_inv in H as (d & r2 & -> & Hd & H).
    apply matches_cat_inv in H as (v & z & -> & Hv & Hz).
    apply matches_end_inv in Hz as [-> Hend].
    apply andb_true_iff in Hend as [_ Hw3]. apply isEmpty_true in Hw3. subst w3.
    apply matches_plus_class in Hu as [Hune Hu].
    apply matches_class_inv in Hd as (x & -> & Hx). apply isDot_true in Hx. subst x.
    apply matches_plus_class in Hv as [Hvne Hv].
    destruct (allChars_last _ u Hune Hu) as (u' & c & -> & Hc).
    exists (w1 +:+ u'), c, v. repeat split; auto.
    + rewrite !append_nil_r, !append_assoc. reflexivity.
    + intros ->. discriminate.
  - intros (stem & c & ext & -> & Hc & Hne & Hw).
    replace (stem +:+ String c ("." +:+ ext))
      with (stem +:+ ((String c "" +:+ (String "." "" +:+ (ext +:+ ""))) +:+ ""))
      by (now rewrite !append_nil_r).
    constructor; [apply matches_star_any|].
    constructor; [|constructor].
    unfold regexp.extension.
    constructor.
    { apply matches_plus_class. split; [discriminate|].
      simpl. rewrite andb_true_r. apply negb_true_iff. apply Ascii.eqb_neq. exact Hc. }
    constructor; [now constructor|].
    constructor; [now apply matches_plus_class|].
    constructor.
Qed.

(** C7. In [uploadFile], an empty filename becomes ["File.txt"]; a
    non-empty filename with no extension, that is, one the expression
    [[^.]+\.\w+$] does not match, gets [".txt"] appended; a filename with
    an extension is left as it is.  So ["foo"] becomes ["foo.txt"] and
    ["foo.bin"] stays ["foo.bin"]. *)
Theorem formFilename_extension :
  (forall f : SecretField, Filename f = "" -> formFilename f = "File.txt")
  /\ (forall f : SecretField,
         Filename f <> "" ->
         ~ hasExtension (Filename f) ->
         formFilename f = Filename f +:+ ".txt")
  /\ (forall f : SecretField,
         hasExtension (Filename f) -> formFilename f = Filename f)
  /\ (forall name : string,
         regexp.Match regexp.extension name = true <-> hasExtension name)
  /\ (forall slug item : string,
         formFilename {| Slug := slug; Filename := ""; ItemValue := item |} = "File.txt"
         /\ formFilename {| Slug := slug; Filename := "foo"; ItemValue := item |} = "foo.txt"
         /\ formFilename {| Slug := slug; Filename := "foo.bin"; ItemValue := item |}
            = "foo.bin").
Proof.
  unfold formFilename. repeat split.
  - intros f ->. reflexivity.
  - intros f Hne Hm. apply isEmpty_false in Hne. rewrite Hne.
    destruct (regexp.Match regexp.extension (Filename f)) eqn:HM; [|reflexivity].
    apply Match_extension in HM. contradiction.
  - intros f Hm. apply Match_extension in Hm. rewrite Hm.
    destruct (Filename f); [discriminate Hm | reflexivity].
  - apply Match_extension.
  - apply Match_extension.
Qed.

Lemma formFilename_extension_witness :
  Filename {| Slug := "key"; Filename := "notes.v2"; ItemValue := "" |} <> ""
  /\ hasExtension "notes.v2"
  /\ formFilename {| Slug := "key"; Filename := "notes.v2"; ItemValue := "" |} = "notes.v2".
Proof.
  assert (H : hasExtension "notes.v2").
  { exists "note", "s"%char, "v2". repeat split; discriminate. }
  split; [discriminate|]. split; [exact H|].
  exact (proj1 (proj2 (proj2 formFilename_extension))
           {| Slug := "key"; Filename := "notes.v2"; ItemValue := "" |} H).
Defined.

Example formFilename_dotfile (slug item : string) :
  formFilename {| Slug := slug; Filename := ".bashrc"; ItemValue := item |} = ".bashrc.txt"
  /\ formFilename {| Slug := slug; Filename := "a.tar.gz"; ItemValue := item |} = "a.tar.gz"
  /\ formFilename {| Slug := slug; Filename := "a..b"; ItemValue := item |} = "a..b.txt"
  /\ formFilename {| Slug := slug; Filename := "a.b c"; ItemValue := item |} = "a.b c.txt".
Proof. repeat split. Qed.

(** ** File upload *)

Lemma Sprintf_upload_path (secretId : Z) (slug : string) :
  fmt.Sprintf "%d/fields/%s" [fmt.int secretId; fmt.str slug]
  = fmt.itoa secretId +:+ "/fields/" +:+ slug.
Proof. simpl. now rewrite append_nil_r. Qed.

Lemma FormDataContentType_prefix (w : multipart.Writer) :
  strings.HasPrefix (multipart.FormDataContentType w) "multipart/form-data; boundary=" = true.
Proof.
  unfold multipart.FormDataContentType.
  destruct (multipart.ContainsAny _ _); [reflexivity|].
  destruct (multipart.boundary w); reflexivity.
Qed.

Lemma FormDataContentType_not_json (w : multipart.Writer) :
  multipart.FormDataContentType w <> "application/json".
Proof.
  unfold multipart.FormDataContentType.
  destruct (multipart.ContainsAny _ _); discriminate.
Qed.

Section Upload.

Variable env : http.Env.

(** C8. Once the access token is acquired and the request can be built,
    [uploadFile] sends one more request: a PUT to
    [{base}/{apiPath}/secrets/{id}/fields/{slug}] (the segments trimmed
    as [urlFor] trims them) whose body is a multipart form with exactly
    one part, the file part named ["file"] that holds the item value of
    the field; its [Authorization] header is the bearer token and its
    [Content-Type] is the content type of the form, never
    [application/json]. *)
Theorem uploadFile_request
    (s : Server) (secretId : Z) (fileField : SecretField)
    (sent sent1 : list http.Request) (accessToken : string) :
  getAccessToken env s sent = ((accessToken, None), sent1) ->
  http.requestError env "PUT"
    (urlFor s "secrets" (fmt.itoa secretId +:+ "/fields/" +:+ Slug fileField)) = None ->
  let w := uploadForm (http.randomBoundary env sent1) fileField in
  let req := uploadRequest s secretId fileField (http.randomBoundary env sent1) accessToken in
  uploadFile env s secretId fileField sent
  = ((handleResponse (http.roundTrip env sent1 req)).2, (sent1 ++ [req])%list)
  /\ http.Method req = "PUT"
  /\ (exists b a p,
        trimmedOf (base (ServerURL (config s)) (Tenant (config s)) (TLD (config s))) b
        /\ trimmedOf (apiPathURI (config s)) a
        /\ trimmedOf (fmt.itoa secretId +:+ "/fields/" +:+ Slug fileField) p
        /\ http.URL req = b +:+ "/" +:+ a +:+ "/secrets/" +:+ p)
  /\ http.Body req = http.form w
  /\ multipart.parts w
     = [ {| multipart.fieldname := "file";
            multipart.filename := formFilename fileField;
            multipart.contentType := "application/octet-stream";
            multipart.content := ItemValue fileField |} ]
  /\ http.Headers req !! "Authorization" = Some ["Bearer " +:+ accessToken]
  /\ http.Headers req !! "Content-Type" = Some [multipart.FormDataContentType w]
  /\ strings.HasPrefix (multipart.FormDataContentType w) "multipart/form-data; boundary=" = true
  /\ multipart.FormDataContentType w <> "application/json".
Proof.
  intros Htok Hreq. cbv zeta.
  split.
  - unfold uploadFile, mbind, IO_bind, http.bind.
    rewrite Htok. rewrite Sprintf_upload_path.
    unfold resource, http.NewRequest. change (isEmpty "PUT") with false. cbv iota.
    rewrite Hreq.
    unfold http.Do, handleResponse, http.ret, http.withHeaders, http.Add, http.Set_.
    cbn [http.Headers http.Method http.URL http.Body].
    rewrite lookup_empty. cbn [default app].
    assert (Hh : forall (a c : list string),
               <["Content-Type" := c]> (<["Authorization" := a]> (∅ : http.Header))
               = {[ "Authorization" := a; "Content-Type" := c ]}).
    { intros a c. rewrite insert_insert_ne by discriminate. now rewrite insert_empty. }
    rewrite Hh.
    change (multipart.Close _) with (uploadForm (http.randomBoundary env sent1) fileField).
    fold (uploadRequest s secretId fileField (http.randomBoundary env sent1) accessToken).
    destruct (http.roundTrip env sent1 _) as [res|e]; [|reflexivity].
    destruct ((200 <=? http.StatusCode res) && (http.StatusCode res <? 300)); reflexivity.
  - split; [reflexivity|]. split.
    { eexists _, _, _.
      split; [apply Trim_slash|]. split; [apply Trim_slash|].
      split; [apply Trim_slash|].
      unfold uploadRequest. cbn [http.URL].
      rewrite urlFor_other_eq by discriminate. reflexivity. }
    split; [reflexivity|]. split; [reflexivity|].
    split; [now simplify_map_eq|]. split; [now simplify_map_eq|].
    split; [apply FormDataContentType_prefix | apply FormDataContentType_not_json].
Qed.

End Upload.

(** X12. When the token cannot be acquired, [uploadFile] returns the error of
    [getAccessToken] and sends nothing more. *)
Lemma uploadFile_token_error
    (env : http.Env) (s : Server) (secretId : Z) (fileField : SecretField)
    (sent sent1 : list http.Request) (accessToken : string) (err : error) :
  getAccessToken env s sent = ((accessToken, Some err), sent1) ->
  uploadFile env s secretId fileField sent = (Some err, sent1).
Proof.
  intros Htok. unfold uploadFile, mbind, IO_bind, http.bind.
  now rewrite Htok.
Qed.

Lemma uploadFile_request_witness :
  getAccessToken (Examples.network "{}") (Examples.acme Examples.static) []
  = (("s3cr3t", None), [])
  /\ http.requestError (Examples.network "{}") "PUT"
       (urlFor (Examples.acme Examples.static) "secrets"
          (fmt.itoa 5 +:+ "/fields/" +:+ "private-key")) = None
  /\ uploadFile (Examples.network "{}") (Examples.acme Examples.static) 5
       {| Slug := "private-key"; Filename := "id_rsa"; ItemValue := "KEY" |} []
     = (None,
        [uploadRequest (Examples.acme Examples.static) 5
           {| Slug := "private-key"; Filename := "id_rsa"; ItemValue := "KEY" |}
           "5f1d0c7e9a3b" "s3cr3t"]).
Proof.
  split; [reflexivity|]. split; [reflexivity|].
  exact (proj1 (uploadFile_request (Examples.network "{}")
                  (Examples.acme Examples.static) 5
                  {| Slug := "private-key"; Filename := "id_rsa"; ItemValue := "KEY" |}
                  [] [] "s3cr3t" eq_refl eq_refl)).
Defined.

Example uploadRequest_example :
  uploadRequest (Examples.acme Examples.static) 5
    {| Slug := "private-key"; Filename := "id_rsa"; ItemValue := "KEY" |}
    "5f1d0c7e9a3b" "s3cr3t"
  = {| http.Method := "PUT";
       http.URL := "https://acme.secretservercloud.com/api/v1/secrets/5/fields/private-key";
       http.Headers :=
         {[ "Authorization" := ["Bearer s3cr3t"];
            "Content-Type" := ["multipart/form-data; boundary=5f1d0c7e9a3b"] ]};
       http.Body :=
         http.form
           {| multipart.boundary := "5f1d0c7e9a3b";
              multipart.parts :=
                [ {| multipart.fieldname := "file";
                     multipart.filename := "id_rsa.txt";
                     multipart.contentType := "application/octet-stream";
                     multipart.content := "KEY" |} ];
              multipart.closed := true |} |}.
Proof. reflexivity. Qed.

(** ** A grant without an access token *)

Lemma saveError_None (saved : option error) : json.saveError saved None = saved.
Proof. destruct saved; reflexivity. Qed.

Lemma decodeMembers_without_token (ms : list (string * json.value)) :
  grantWithoutToken ms ->
  forall (g : json.grant) (saved : option error),
  exists g', json.decodeMembers ms g saved = (g', saved)
             /\ json.grant_AccessToken g' = json.grant_AccessToken g.
Proof.
  induction 1 as [|[k v] ms Hm _ IH]; intros g saved.
  - exists g. split; reflexivity.
  - cbn [json.decodeMembers]. cbn [fst snd] in Hm.
    assert (Hstep : forall g1 : json.grant,
               json.grant_AccessToken g1 = json.grant_AccessToken g ->
               exists g', json.decodeMembers ms g1 saved = (g', saved)
                          /\ json.grant_AccessToken g' = json.grant_AccessToken g).
    { intros g1 H1. destruct (IH g1 saved) as [g' [Hd Ha]].
      exists g'. split; [exact Hd | congruence]. }
    destruct (json.lookupField k) as [[]|]; try contradiction.
    + destruct Hm as [->|[t ->]]; cbn; rewrite saveError_None; now apply Hstep.
    + destruct Hm as [->|[t ->]]; cbn; rewrite saveError_None; now apply Hstep.
    + destruct Hm as [->|[lit [n [-> Hn]]]]; cbn; rewrite ?Hn, saveError_None;
        now apply Hstep.
    + now apply Hstep.
Qed.

Section Access.

Variable env : http.Env.

(** What [accessResource] does once the payload is encoded, the request
    built and the token acquired. *)
Lemma accessResource_sends
    (s : Server) (method resource path : string) (input : option json.payload)
    (body accessToken : string) (sent sent1 : list http.Request) :
  resource = "secrets" \/ resource = "secret-templates" ->
  (input = None /\ body = "")
  \/ (exists v, input = Some v /\ json.Marshal v = (Some body, None)) ->
  http.requestError env (if isEmpty method then "GET" else method)
    (urlFor s resource path) = None ->
  getAccessToken env s sent = ((accessToken, None), sent1) ->
  let req := resourceRequest s method resource path body accessToken in
  accessResource env s method resource path input sent
  = (let '(data, _, err) := handleResponse (http.roundTrip env sent1 req) in (data, err),
     (sent1 ++ [req])%list).
Proof.
  intros Hres Hin Hreq Htok. cbv zeta. unfold accessResource.
  assert (String.eqb resource "secrets" || String.eqb resource "secret-templates" = true)
    as -> by (destruct Hres as [-> | ->]; reflexivity).
  cbn [negb].
  assert (Hm : match input with
               | Some v =>
                   match json.Marshal v with
                   | (Some data, None) => (http.raw data, None)
                   | (_, Some err) => (http.raw "", Some err)
                   | (None, None) => (http.raw "", None)
                   end
               | None => (http.raw "", None)
               end = (http.raw body, @None error)).
  { destruct Hin as [[-> ->]|[v [-> ->]]]; reflexivity. }
  rewrite Hm. unfold http.NewRequest. rewrite Hreq.
  unfold mbind, IO_bind, http.bind. rewrite Htok.
  unfold http.Do, http.ret, http.withHeaders, http.Add, http.Set_.
  cbn [http.Headers http.Method http.URL http.Body].
  rewrite lookup_empty. cbn [default app].
  unfold resourceRequest.
  destruct (String.eqb method "POST" || String.eqb method "PUT" || String.eqb method "PATCH").
  - rewrite insert_insert_ne by discriminate. rewrite !insert_empty.
    destruct (handleResponse _) as [[data st] err]. reflexivity.
  - rewrite !insert_empty.
    destruct (handleResponse _) as [[data st] err]. reflexivity.
Qed.

(** C9, amended. When the token endpoint answers with a 2xx status and a
    body that [encoding/json] accepts as JSON (well formed, arrays and
    objects nested at most 10000 deep) and that is [null] or an object
    with no [access_token] member whose [refresh_token], [token_type]
    and [expires_in] members, if any, are [null] or of the type of the
    grant, [getAccessToken] returns the empty string and no error;
    [accessResource], for a known resource, a payload that encodes and a
    request that can be built, then sends the resource request with the
    header [Authorization: Bearer ] (an empty token) after the token
    request. *)
Theorem getAccessToken_empty_token
    (s : Server) (sent : list http.Request) (res : http.Response)
    (v : json.value) :
  AccessToken (Credentials (config s)) = "" ->
  http.requestError env "POST" (urlFor s "token" "") = None ->
  http.roundTrip env sent (tokenRequest s) = http.responded res ->
  200 <= http.StatusCode res < 300 ->
  json.parse (http.ResponseBody res) = Some v ->
  bodyWithoutToken v ->
  getAccessToken env s sent = (("", None), (sent ++ [tokenRequest s])%list)
  /\ forall (method resource path : string) (input : option json.payload) (body : string),
      resource = "secrets" \/ resource = "secret-templates" ->
      (input = None /\ body = "")
      \/ (exists v, input = Some v /\ json.Marshal v = (Some body, None)) ->
      http.requestError env (if isEmpty method then "GET" else method)
        (urlFor s resource path) = None ->
      let req := resourceRequest s method resource path body "" in
      (accessResource env s method resource path input sent).2
      = (sent ++ [tokenRequest s; req])%list
      /\ http.Headers req !! "Authorization" = Some ["Bearer "].
Proof.
  intros Htok Hpost Hrt Hst Hparse Hv.
  assert (Hget : getAccessToken env s sent = (("", None), (sent ++ [tokenRequest s])%list)).
  { unfold getAccessToken. apply isEmpty_true in Htok. rewrite Htok. cbn [negb].
    rewrite Encode_passwordGrant. unfold mbind, IO_bind, http.bind.
    rewrite Post_token, Hpost. cbv zeta. fold (tokenRequest s). rewrite Hrt.
    unfold handleResponse.
    assert ((200 <=? http.StatusCode res) && (http.StatusCode res <? 300) = true) as ->.
    { apply andb_true_iff. split; [apply Z.leb_le | apply Z.ltb_lt]; lia. }
    unfold json.Unmarshal. rewrite Hparse.
    destruct Hv as [-> | (ms & -> & Hms)]; cbn [json.decodeGrant]; [reflexivity|].
    destruct (decodeMembers_without_token ms Hms json.zeroGrant None) as [g' [-> Hg]].
    cbn in Hg. rewrite Hg. reflexivity. }
  split; [exact Hget|].
  intros method resource path input body Hres Hin Hreq. cbv zeta.
  split.
  - rewrite (accessResource_sends s method resource path input body "" sent _ Hres Hin Hreq Hget).
    cbn [snd]. now rewrite <- app_assoc.
  - unfold resourceRequest. cbn [http.Headers].
    destruct (String.eqb method "POST" || String.eqb method "PUT" || String.eqb method "PATCH");
      now simplify_map_eq.
Qed.

End Access.

Lemma getAccessToken_empty_token_witness :
  AccessToken (Credentials (config (Examples.acme Examples.password))) = ""
  /\ http.roundTrip (Examples.network Examples.refusal) []
       (tokenRequest (Examples.acme Examples.password))
     = Examples.ok Examples.refusal
  /\ json.parse Examples.refusal
     = Some (json.Object [("error", json.Str "invalid_grant"); ("expires_in", json.Null)])
  /\ bodyWithoutToken
       (json.Object [("error", json.Str "invalid_grant"); ("expires_in", json.Null)])
  /\ getAccessToken (Examples.network Examples.refusal)
       (Examples.acme Examples.password) []
     = (("", None), [tokenRequest (Examples.acme Examples.password)]).
Proof.
  assert (Hv : bodyWithoutToken
                 (json.Object
                    [("error", json.Str "invalid_grant"); ("expires_in", json.Null)])).
  { right. eexists. split; [reflexivity|]. repeat constructor. }
  split; [reflexivity|]. split; [reflexivity|]. split; [reflexivity|].
  split; [exact Hv|].
  refine (proj1 (getAccessToken_empty_token
                   (Examples.network Examples.refusal)
                   (Examples.acme Examples.password) []
                   {| http.StatusCode := 200; http.Status := "200 OK";
                      http.ResponseBody := Examples.refusal |}
                   _ eq_refl eq_refl eq_refl _ eq_refl Hv)).
  simpl. lia.
Defined.

(** C9 as stated fails: this body is valid JSON and has no [access_token]
    member, yet [getAccessToken] returns the decoder's error, and
    [accessResource] stops there, without sending the resource request. *)
Lemma getAccessToken_valid_json_counterexample :
  json.parse Examples.stringExpiry
  = Some (json.Object [("expires_in", json.Str "3600")])
  /\ getAccessToken (Examples.network Examples.stringExpiry)
       (Examples.acme Examples.password) []
     = (("", Some (UnmarshalTypeError "string" "expires_in")),
        [tokenRequest (Examples.acme Examples.password)])
  /\ accessResource (Examples.network Examples.stringExpiry)
       (Examples.acme Examples.password) "GET" "secrets" "1" None []
     = (("", Some (UnmarshalTypeError "string" "expires_in")),
        [tokenRequest (Examples.acme Examples.password)]).
Proof. repeat split; vm_compute; reflexivity. Qed.

Example getAccessToken_array_body :
  getAccessToken (Examples.network "[]") (Examples.acme Examples.password) []
  = (("", Some (UnmarshalTypeError "array" "")),
     [tokenRequest (Examples.acme Examples.password)]).
Proof. vm_compute. reflexivity. Qed.

Example getAccessToken_null_body :
  getAccessToken (Examples.network "null") (Examples.acme Examples.password) []
  = (("", None), [tokenRequest (Examples.acme Examples.password)]).
Proof. vm_compute. reflexivity. Qed.

(** The scanner refuses an array or an object that begins inside
    [json.maxNestingDepth] others. *)
Lemma parseValue_max_depth (fuel : nat) (depth : N) (s r : string) (c : ascii) :
  (json.maxNestingDepth <= depth)%N ->
  json.skipSpace s = String c r ->
  c = "["%char \/ c = "{"%char ->
  json.parseValue fuel depth s = None.
Proof.
  intros Hd Hs Hc. destruct fuel as [|fuel]; [reflexivity|].
  apply N.leb_le in Hd.
  cbn [json.parseValue]. rewrite Hs.
  destruct Hc as [-> | ->]; now rewrite Hd.
Qed.

(** Ten thousand arrays, one inside the other, are accepted; one more is
    a syntax error, for [getAccessToken] too. *)
Example parse_nesting :
  MoreExamples.Valid (MoreExamples.nested 10000) = true
  /\ MoreExamples.Valid (MoreExamples.nested 10001) = false
  /\ getAccessToken
       (Examples.network
          (Examples.quoted "{'x':" +:+ MoreExamples.nested 10000 +:+ "}"))
       (Examples.acme Examples.password) []
     = (("", Some (SyntaxError "invalid JSON input")),
        [tokenRequest (Examples.acme Examples.password)]).
Proof. split; [|split]; vm_compute; reflexivity. Qed.

Example accessResource_end_to_end :
  accessResource (Examples.network (Examples.quoted "{'access_token':'T0'}"))
    (Examples.acme Examples.password) "GET" "secrets" "1" None []
  = (("{}", None),
     [tokenRequest (Examples.acme Examples.password);
      {| http.Method := "GET";
         http.URL := "https://acme.secretservercloud.com/api/v1/secrets/1";
         http.Headers := {[ "Authorization" := ["Bearer T0"] ]};
         http.Body := http.raw "" |}]).
Proof. vm_compute. reflexivity. Qed.

(** * Further properties of the package *)

(** ** More on trimming *)

Lemma Repeat_slash_S (n : nat) :
  strings.Repeat "/" (S n) = String "/" (strings.Repeat "/" n).
Proof. reflexivity. Qed.

Lemma TrimRight_Repeat (m : nat) : strings.TrimRight (strings.Repeat "/" m) "/" = "".
Proof.
  induction m as [|m IH]; [reflexivity|].
  rewrite Repeat_slash_S, TrimRight_cons, IH. reflexivity.
Qed.

Lemma TrimRight_app_Repeat (x : string) (m : nat) :
  strings.TrimRight (x +:+ strings.Repeat "/" m) "/" = strings.TrimRight x "/".
Proof.
  induction x as [|c x IH]; simpl String.append.
  - apply TrimRight_Repeat.
  - now rewrite !TrimRight_cons, IH.
Qed.

Lemma TrimLeft_Repeat_app (n : nat) (y : string) :
  strings.TrimLeft (strings.Repeat "/" n +:+ y) "/" = strings.TrimLeft y "/".
Proof.
  induction n as [|n IH]; [reflexivity|].
  rewrite Repeat_slash_S. simpl String.append. now rewrite TrimLeft_cons.
Qed.

Lemma TrimRight_Repeat_app (n : nat) (z : string) :
  strings.TrimRight (strings.Repeat "/" n +:+ z) "/"
  = match strings.TrimRight z "/" with
    | EmptyString => EmptyString
    | t => strings.Repeat "/" n +:+ t
    end.
Proof.
  induction n as [|n IH].
  - simpl. now destruct (strings.TrimRight z "/").
  - rewrite Repeat_slash_S. simpl String.append. rewrite TrimRight_cons, IH.
    destruct (strings.TrimRight z "/") as [|a t]; [reflexivity|].
    destruct n; reflexivity.
Qed.

(** Slashes added before and after a string do not change what [Trim]
    returns. *)
Lemma Trim_pad (n m : nat) (p : string) :
  strings.Trim (strings.Repeat "/" n +:+ p +:+ strings.Repeat "/" m) "/"
  = strings.Trim p "/".
Proof.
  unfold strings.Trim.
  rewrite TrimRight_Repeat_app, TrimRight_app_Repeat.
  destruct (strings.TrimRight p "/") as [|a t] eqn:Hp; [reflexivity|].
  apply TrimLeft_Repeat_app.
Qed.

Lemma HasSuffix_app (a b : string) :
  b <> "" -> strings.HasSuffix (a +:+ b) "/" = strings.HasSuffix b "/".
Proof.
  intros Hb. induction a as [|c a IH]; [reflexivity|].
  simpl String.append.
  change (strings.HasSuffix (String c (a +:+ b)) "/")
    with ((String c (a +:+ b) =? "/")%string || strings.HasSuffix (a +:+ b) "/").
  rewrite IH.
  destruct (String.eqb_spec (String c (a +:+ b)) "/") as [Heq|]; [|reflexivity].
  injection Heq as _ Heq. destruct a; simpl in Heq; [contradiction|discriminate].
Qed.

(** ** More on [New] *)

(** X1. The server [New] returns keeps the credentials, the server URL,
    the tenant, the TLS configuration and the log level of the
    configuration; its TLD is ["com"] when none was given and is never
    empty; its API path and token path are the configured ones (or
    ["/api/v1"] and ["/oauth2/token"]) without leading and trailing
    slashes; and exactly one of its server URL and tenant is set. *)
Theorem New_defaults (c : Configuration) (g g' : Globals) (s : Server) :
  New c g = ((Some s, None), g') ->
  Credentials (config s) = Credentials c
  /\ ServerURL (config s) = ServerURL c
  /\ Tenant (config s) = Tenant c
  /\ TLSClientConfig (config s) = TLSClientConfig c
  /\ LogLevel_ (config s) = LogLevel_ c
  /\ TLD (config s) = (if isEmpty (TLD c) then "com" else TLD c)
  /\ TLD (config s) <> ""
  /\ trimmedOf (if isEmpty (apiPathURI c) then "/api/v1" else apiPathURI c)
       (apiPathURI (config s))
  /\ trimmedOf (if isEmpty (tokenPathURI c) then "/oauth2/token" else tokenPathURI c)
       (tokenPathURI (config s))
  /\ (ServerURL (config s) = "" <-> Tenant (config s) <> "").
Proof.
  intros HNew. unfold New in HNew.
  destruct (isEmpty (ServerURL c)) eqn:Hs; destruct (isEmpty (Tenant c)) eqn:Ht;
    cbn [andb orb negb] in HNew; try discriminate;
    injection HNew as <- _;
    apply String.eqb_eq in Hs || apply String.eqb_neq in Hs;
    apply String.eqb_eq in Ht || apply String.eqb_neq in Ht.
  all: destruct (isEmpty (TLD c)) eqn:Htld; cbn [set_TLD apiPathURI];
    destruct (isEmpty (apiPathURI c));
    cbn [set_apiPathURI set_TLD tokenPathURI apiPathURI];
    destruct (isEmpty (tokenPathURI c));
    cbn [config set_tokenPathURI set_apiPathURI set_TLD Credentials ServerURL Tenant
           TLSClientConfig LogLevel_ TLD apiPathURI tokenPathURI].
  all: repeat split; try apply Trim_slash; try discriminate; try tauto;
    try (apply String.eqb_neq; exact Htld); try congruence.
Qed.

(** X2. When [New] returns an error it has not touched the process-wide
    state.  When it returns a server, the TLS configuration of the default
    transport is replaced only if the configuration has one, and the
    global log level follows [LogLevel]: trace, debug, warn and error for
    -2, -1, 1 and 2, info for every other value. *)
Theorem New_process_state (c : Configuration) (g : Globals) :
  (forall e : error, (New c g).1 = (None, Some e) -> (New c g).2 = g)
  /\ (forall s : Server,
        (New c g).1 = (Some s, None) ->
        DefaultTransport_TLSClientConfig (New c g).2
        = match TLSClientConfig c with
          | Some t => Some t
          | None => DefaultTransport_TLSClientConfig g
          end
        /\ (LogLevel_ c = -2 -> zerolog_GlobalLevel (New c g).2 = TraceLevel)
        /\ (LogLevel_ c = -1 -> zerolog_GlobalLevel (New c g).2 = DebugLevel)
        /\ (LogLevel_ c = 1 -> zerolog_GlobalLevel (New c g).2 = WarnLevel)
        /\ (LogLevel_ c = 2 -> zerolog_GlobalLevel (New c g).2 = ErrorLevel)
        /\ (LogLevel_ c < -2 \/ LogLevel_ c = 0 \/ 2 < LogLevel_ c ->
            zerolog_GlobalLevel (New c g).2 = InfoLevel)).
Proof.
  unfold New.
  destruct (isEmpty (ServerURL c) && isEmpty (Tenant c)
            || negb (isEmpty (ServerURL c)) && negb (isEmpty (Tenant c))).
  - split; [reflexivity | discriminate].
  - split; [discriminate|]. intros s _. cbn [fst snd].
    assert (Hl : forall c', LogLevel_ (set_tokenPathURI
                   (strings.Trim (tokenPathURI c') "/") c') = LogLevel_ c')
      by reflexivity.
    destruct (isEmpty (TLD c)); cbn [set_TLD apiPathURI];
      destruct (isEmpty (apiPathURI c));
      cbn [set_apiPathURI set_TLD tokenPathURI apiPathURI];
      destruct (isEmpty (tokenPathURI c));
      cbn [set_tokenPathURI set_apiPathURI set_TLD LogLevel_ TLSClientConfig
             DefaultTransport_TLSClientConfig zerolog_GlobalLevel];
      unfold LevelTrace, LevelDebug, LevelWarn, LevelError;
      (split; [reflexivity|]);
      repeat split; intros H;
      repeat match goal with
        | |- context [(?a =? ?b)%Z] => destruct (Z.eqb_spec a b)
        end; try reflexivity; lia.
Qed.

(** ** More on [urlFor] *)

(** For the resource ["token"], [urlFor] ignores the path. *)
Lemma urlFor_token_ignores_path (s : Server) (path path' : string) :
  urlFor s "token" path = urlFor s "token" path'.
Proof. now rewrite !urlFor_grant_eq. Qed.

(** X3. Slashes added before or after the path never change the URL;
    nor do slashes added around a resource name, as long as neither form
    of the name is ["token"]. *)
Theorem urlFor_path_slashes (s : Server) (resource path : string) (n m : nat) :
  urlFor s resource (strings.Repeat "/" n +:+ path +:+ strings.Repeat "/" m)
  = urlFor s resource path
  /\ (resource <> "token" ->
      strings.Repeat "/" n +:+ resource +:+ strings.Repeat "/" m <> "token" ->
      urlFor s (strings.Repeat "/" n +:+ resource +:+ strings.Repeat "/" m) path
      = urlFor s resource path).
Proof.
  split.
  - destruct (String.eqb_spec resource "token") as [->|Hne].
    + now rewrite !urlFor_grant_eq.
    + rewrite !urlFor_other_eq by assumption. now rewrite Trim_pad.
  - intros Hne Hne'. rewrite !urlFor_other_eq by assumption. now rewrite Trim_pad.
Qed.

(** X4. Two servers that differ only by slashes appended to a non-empty
    server URL resolve every resource and path to the same URL. *)
Theorem urlFor_serverURL_slashes (s s' : Server) (resource path : string) (m : nat) :
  ServerURL (config s) <> "" ->
  ServerURL (config s') = ServerURL (config s) +:+ strings.Repeat "/" m ->
  apiPathURI (config s') = apiPathURI (config s) ->
  tokenPathURI (config s') = tokenPathURI (config s) ->
  urlFor s' resource path = urlFor s resource path.
Proof.
  intros Hne Hs Ha Ht.
  assert (Hne' : ServerURL (config s') <> "").
  { rewrite Hs. destruct (ServerURL (config s)); [contradiction | discriminate]. }
  assert (Hb : strings.Trim (base (ServerURL (config s')) (Tenant (config s'))
                               (TLD (config s'))) "/"
               = strings.Trim (base (ServerURL (config s)) (Tenant (config s))
                                 (TLD (config s))) "/").
  { unfold base. apply isEmpty_false in Hne, Hne'. rewrite Hne, Hne', Hs.
    unfold strings.Trim. now rewrite TrimRight_app_Repeat. }
  destruct (String.eqb_spec resource "token") as [->|Hr].
  - now rewrite !urlFor_grant_eq, Hb, Ht.
  - now rewrite !urlFor_other_eq, Hb, Ha by assumption.
Qed.

(** The base URL of a cloud tenant under the default TLD, trimmed. *)
Lemma cloud_base (tenant : string) :
  strings.Trim (base "" tenant "com") "/"
  = "https://" +:+ tenant +:+ ".secretservercloud.com".
Proof.
  unfold base. cbn [isEmpty String.eqb].
  change ("https://" +:+ tenant +:+ ".secretservercloud." +:+ "com" +:+ "/")
    with ("https://" +:+ tenant +:+ ".secretservercloud.com/").
  replace ("https://" +:+ tenant +:+ ".secretservercloud.com/")
    with (("https://" +:+ tenant +:+ ".secretservercloud.com")
            +:+ strings.Repeat "/" 1)
    by (rewrite !append_assoc; reflexivity).
  unfold strings.Trim. rewrite TrimRight_app_Repeat.
  rewrite TrimRight_id; [reflexivity|].
  replace ("https://" +:+ tenant +:+ ".secretservercloud.com")
    with (("https://" +:+ tenant) +:+ ".secretservercloud.com")
    by (rewrite !append_assoc; reflexivity).
  rewrite HasSuffix_app by discriminate. reflexivity.
Qed.

(** X5. For a configuration that sets only the tenant (no server URL,
    TLD or paths), the server [New] returns has the token URL
    [https://{tenant}.secretservercloud.com/oauth2/token] and resolves
    every other resource under
    [https://{tenant}.secretservercloud.com/api/v1/]. *)
Theorem urlFor_cloud (c : Configuration) (g g' : Globals) (s : Server) :
  New c g = ((Some s, None), g') ->
  ServerURL c = "" -> TLD c = "" -> apiPathURI c = "" -> tokenPathURI c = "" ->
  urlFor s "token" "" = "https://" +:+ Tenant c +:+ ".secretservercloud.com/oauth2/token"
  /\ forall resource path : string,
      resource <> "token" ->
      urlFor s resource path
      = "https://" +:+ Tenant c +:+ ".secretservercloud.com/api/v1/"
        +:+ strings.Trim resource "/" +:+ "/" +:+ strings.Trim path "/".
Proof.
  intros HNew Hs Htld Ha Ht.
  destruct (New_fields _ _ _ _ HNew) as (_ & Hs' & Hten & Htld' & Ha' & Ht').
  rewrite Htld in Htld'. rewrite Ha in Ha'. rewrite Ht in Ht'. rewrite Hs in Hs'.
  cbn in Htld', Ha', Ht'.
  split.
  - rewrite urlFor_grant_eq, Hs', Hten, Htld', cloud_base, Ht'.
    rewrite !append_assoc. reflexivity.
  - intros resource path Hr.
    rewrite urlFor_other_eq, Hs', Hten, Htld', cloud_base, Ha' by assumption.
    rewrite !append_assoc. reflexivity.
Qed.



Lemma countByte_app (c : ascii) (a b : string) :
  countByte c (a +:+ b) = (countByte c a + countByte c b)%nat.
Proof.
  induction a as [|d a IH]; [reflexivity|].
  simpl. rewrite IH. lia.
Qed.

Lemma QueryEscape_cons (c : ascii) (s : string) :
  url.QueryEscape (String c s) = url.QueryEscape (String c "") +:+ url.QueryEscape s.
Proof.
  simpl. destruct (Ascii.eqb c " "); [reflexivity|].
  destruct (url.shouldEscape c); reflexivity.
Qed.

Lemma QueryEscape_byte (c : ascii) :
  countByte "&" (url.QueryEscape (String c "")) = 0%nat
  /\ countByte "=" (url.QueryEscape (String c "")) = 0%nat.
Proof. destruct c as [[] [] [] [] [] [] [] []]; split; vm_compute; reflexivity. Qed.

(** An escaped string holds neither [&] nor [=]. *)
Lemma QueryEscape_separators (s : string) :
  countByte "&" (url.QueryEscape s) = 0%nat
  /\ countByte "=" (url.QueryEscape s) = 0%nat.
Proof.
  induction s as [|c s [IH1 IH2]]; [split; reflexivity|].
  rewrite QueryEscape_cons, !countByte_app, IH1, IH2.
  destruct (QueryEscape_byte c) as [-> ->]. split; reflexivity.
Qed.

Section More.

Variable env : http.Env.

(** What [getAccessToken] sends when it has to ask for a token. *)
Lemma getAccessToken_sent (s : Server) (sent : list http.Request) :
  AccessToken (Credentials (config s)) = "" ->
  (getAccessToken env s sent).2
  = match http.requestError env "POST" (urlFor s "token" "") with
    | Some _ => sent
    | None => (sent ++ [tokenRequest s])%list
    end.
Proof.
  intros Htok. unfold getAccessToken.
  apply isEmpty_true in Htok. rewrite Htok. cbn [negb].
  rewrite Encode_passwordGrant. unfold mbind, IO_bind, http.bind.
  rewrite Post_token.
  destruct (http.requestError env "POST" (urlFor s "token" "")); [reflexivity|].
  cbv beta iota zeta. fold (tokenRequest s).
  destruct (handleResponse (http.roundTrip env sent (tokenRequest s)))
    as [[data st] [e|]]; [reflexivity|].
  destruct (json.Unmarshal data json.zeroGrant) as [gr [e|]]; reflexivity.
Qed.

(** X6. The form of the token request has exactly one [key=value] pair
    per field: three [=] and two [&] without a domain, four and three
    with one, whatever bytes the username, password and domain hold.  A
    credential cannot add a field to the form. *)
Theorem getAccessToken_form_fields (s : Server) (sent : list http.Request) :
  AccessToken (Credentials (config s)) = "" ->
  http.requestError env "POST" (urlFor s "token" "") = None ->
  exists form : string,
    (getAccessToken env s sent).2
    = (sent ++ [ {| http.Method := "POST";
                    http.URL := urlFor s "token" "";
                    http.Headers :=
                      {[ "Content-Type" := ["application/x-www-form-urlencoded"] ]};
                    http.Body := http.raw form |} ])%list
    /\ countByte "=" form
       = (if isEmpty (Domain (Credentials (config s))) then 3 else 4)%nat
    /\ countByte "&" form
       = (if isEmpty (Domain (Credentials (config s))) then 2 else 3)%nat.
Proof.
  intros Htok Hreq. exists (passwordGrantForm (Credentials (config s))).
  split.
  - rewrite getAccessToken_sent, Hreq by assumption. reflexivity.
  - unfold passwordGrantForm.
    destruct (QueryEscape_separators (Domain (Credentials (config s)))) as [Hd1 Hd2].
    destruct (QueryEscape_separators (Password (Credentials (config s)))) as [Hp1 Hp2].
    destruct (QueryEscape_separators (Username (Credentials (config s)))) as [Hu1 Hu2].
    destruct (isEmpty (Domain (Credentials (config s))));
      rewrite !countByte_app, ?Hd1, ?Hd2, ?Hp1, ?Hp2, ?Hu1, ?Hu2; split; reflexivity.
Qed.

Lemma decodeMembers_app (ms1 ms2 : list (string * json.value)) :
  forall (g : json.grant) (saved : option error),
    json.decodeMembers (ms1 ++ ms2) g saved
    = let '(g1, e1) := json.decodeMembers ms1 g saved in json.decodeMembers ms2 g1 e1.
Proof.
  induction ms1 as [|[k v] ms1 IH]; intros g saved; cbn [app json.decodeMembers].
  - reflexivity.
  - destruct (json.lookupField k) as [f|]; [|apply IH].
    destruct (json.storeField f v g) as [g' e]. apply IH.
Qed.

(** X7. When the token endpoint answers with a 2xx status and a JSON
    object that has one member selecting [access_token] (by its exact or
    case-folded name) with a string value, the other members fitting the
    grant, [getAccessToken] returns that string and no error. *)
Theorem getAccessToken_returns_access_token
    (s : Server) (sent : list http.Request) (res : http.Response)
    (ms1 ms2 : list (string * json.value)) (key token : string) :
  AccessToken (Credentials (config s)) = "" ->
  http.requestError env "POST" (urlFor s "token" "") = None ->
  http.roundTrip env sent (tokenRequest s) = http.responded res ->
  200 <= http.StatusCode res < 300 ->
  json.parse (http.ResponseBody res)
  = Some (json.Object (ms1 ++ (key, json.Str token) :: ms2)) ->
  json.lookupField key = Some json.fAccessToken ->
  grantWithoutToken ms1 -> grantWithoutToken ms2 ->
  getAccessToken env s sent = ((token, None), (sent ++ [tokenRequest s])%list).
Proof.
  intros Htok Hpost Hrt Hst Hparse Hkey Hms1 Hms2.
  unfold getAccessToken. apply isEmpty_true in Htok. rewrite Htok. cbn [negb].
  rewrite Encode_passwordGrant. unfold mbind, IO_bind, http.bind.
  rewrite Post_token, Hpost. cbv zeta. fold (tokenRequest s). rewrite Hrt.
  unfold handleResponse.
  assert ((200 <=? http.StatusCode res) && (http.StatusCode res <? 300) = true) as ->.
  { apply andb_true_iff. split; [apply Z.leb_le | apply Z.ltb_lt]; lia. }
  unfold json.Unmarshal. rewrite Hparse. cbn [json.decodeGrant].
  rewrite decodeMembers_app.
  destruct (decodeMembers_without_token ms1 Hms1 json.zeroGrant None) as [g1 [-> _]].
  cbn [json.decodeMembers]. rewrite Hkey.
  cbn [json.storeField json.storeString json.fieldName json.saveError].
  match goal with
  | |- context [json.decodeMembers ms2 ?g2 None] =>
      destruct (decodeMembers_without_token ms2 Hms2 g2 None) as [g3 [-> Hg3]]
  end.
  cbn in Hg3. rewrite Hg3. reflexivity.
Qed.

End More.

Section Requests.

Variable env : http.Env.

(** X8. Once the payload is encoded, the request built and the token
    acquired, [accessResource] sends one request: the given method ([GET]
    for an empty one), the resource URL, the encoded payload as body, the
    bearer token, and [Content-Type: application/json] exactly for the
    methods ["POST"], ["PUT"] and ["PATCH"] (matched case-sensitively);
    it has no other header.  The result is what [handleResponse] makes
    of the response. *)
Theorem accessResource_request
    (s : Server) (method resource path : string) (input : option json.payload)
    (body accessToken : string) (sent sent1 : list http.Request) :
  resource = "secrets" \/ resource = "secret-templates" ->
  (input = None /\ body = "")
  \/ (exists v, input = Some v /\ json.Marshal v = (Some body, None)) ->
  http.requestError env (if isEmpty method then "GET" else method)
    (urlFor s resource path) = None ->
  getAccessToken env s sent = ((accessToken, None), sent1) ->
  exists req : http.Request,
    accessResource env s method resource path input sent
    = (let '(data, _, err) := handleResponse (http.roundTrip env sent1 req) in
       (data, err),
       (sent1 ++ [req])%list)
    /\ http.Method req = (if isEmpty method then "GET" else method)
    /\ http.URL req = urlFor s resource path
    /\ http.Body req = http.raw body
    /\ http.Headers req !! "Authorization" = Some ["Bearer " +:+ accessToken]
    /\ (method = "POST" \/ method = "PUT" \/ method = "PATCH" ->
        http.Headers req !! "Content-Type" = Some ["application/json"])
    /\ (method <> "POST" -> method <> "PUT" -> method <> "PATCH" ->
        http.Headers req !! "Content-Type" = None)
    /\ (forall key : string,
          key <> "Authorization" -> key <> "Content-Type" ->
          http.Headers req !! key = None).
Proof.
  intros Hres Hin Hreq Htok.
  exists (resourceRequest s method resource path body accessToken).
  split; [now apply accessResource_sends|].
  unfold resourceRequest. cbn [http.Method http.URL http.Body http.Headers].
  repeat split.
  - destruct (String.eqb method "POST" || String.eqb method "PUT"
              || String.eqb method "PATCH"); now simplify_map_eq.
  - intros [-> | [-> | ->]]; now simplify_map_eq.
  - intros H1 H2 H3. apply String.eqb_neq in H1, H2, H3. rewrite H1, H2, H3.
    now simplify_map_eq.
  - intros key H1 H2.
    destruct (String.eqb method "POST" || String.eqb method "PUT"
              || String.eqb method "PATCH"); now simplify_map_eq.
Qed.

(** X9. When [http.NewRequest] rejects the method or the URL,
    [accessResource] returns that error and sends nothing: the request is
    built before the token is asked for, so the token endpoint is not
    contacted. *)
Theorem accessResource_request_error
    (s : Server) (method resource path : string) (input : option json.payload)
    (body : string) (err : error) (sent : list http.Request) :
  resource = "secrets" \/ resource = "secret-templates" ->
  (input = None /\ body = "")
  \/ (exists v, input = Some v /\ json.Marshal v = (Some body, None)) ->
  http.requestError env (if isEmpty method then "GET" else method)
    (urlFor s resource path) = Some err ->
  accessResource env s method resource path input sent = (("", Some err), sent).
Proof.
  intros Hres Hin Hreq. unfold accessResource.
  assert (String.eqb resource "secrets" || String.eqb resource "secret-templates" = true)
    as -> by (destruct Hres as [-> | ->]; reflexivity).
  cbn [negb]. unfold http.NewRequest.
  destruct Hin as [[-> ->]|[v [-> ->]]]; rewrite Hreq; reflexivity.
Qed.

(** X10. When [getAccessToken] fails, [accessResource] returns its
    error and sends nothing after it: the resource endpoint is not
    contacted. *)
Theorem accessResource_token_error
    (s : Server) (method resource path : string) (input : option json.payload)
    (body accessToken : string) (err : error) (sent sent1 : list http.Request) :
  resource = "secrets" \/ resource = "secret-templates" ->
  (input = None /\ body = "")
  \/ (exists v, input = Some v /\ json.Marshal v = (Some body, None)) ->
  http.requestError env (if isEmpty method then "GET" else method)
    (urlFor s resource path) = None ->
  getAccessToken env s sent = ((accessToken, Some err), sent1) ->
  accessResource env s method resource path input sent = (("", Some err), sent1).
Proof.
  intros Hres Hin Hreq Htok. unfold accessResource.
  assert (String.eqb resource "secrets" || String.eqb resource "secret-templates" = true)
    as -> by (destruct Hres as [-> | ->]; reflexivity).
  cbn [negb]. unfold http.NewRequest, mbind, IO_bind, http.bind.
  destruct Hin as [[-> ->]|[v [-> ->]]]; rewrite Hreq, Htok; reflexivity.
Qed.

(** X11. In [uploadFile] the token is acquired before the request is
    built: when [http.NewRequest] rejects the URL, [uploadFile] returns
    that error and sends no upload, but what [getAccessToken] sent has
    been sent. *)
Theorem uploadFile_request_error
    (s : Server) (secretId : Z) (fileField : SecretField)
    (sent sent1 : list http.Request) (accessToken : string) (err : error) :
  getAccessToken env s sent = ((accessToken, None), sent1) ->
  http.requestError env "PUT"
    (urlFor s "secrets" (fmt.itoa secretId +:+ "/fields/" +:+ Slug fileField))
  = Some err ->
  uploadFile env s secretId fileField sent = (Some err, sent1).
Proof.
  intros Htok Hreq. unfold uploadFile, mbind, IO_bind, http.bind.
  rewrite Htok, Sprintf_upload_path.
  unfold resource, http.NewRequest. change (isEmpty "PUT") with false. cbv iota.
  now rewrite Hreq.
Qed.

(** What [getAccessToken] adds to the requests sent, with any credential. *)
Lemma getAccessToken_adds (s : Server) (sent : list http.Request) :
  (getAccessToken env s sent).2 = sent
  \/ (getAccessToken env s sent).2 = (sent ++ [tokenRequest s])%list.
Proof.
  destruct (isEmpty (AccessToken (Credentials (config s)))) eqn:Htok.
  - apply isEmpty_true in Htok. rewrite getAccessToken_sent by assumption.
    destruct (http.requestError env "POST" (urlFor s "token" "")); auto.
  - left. unfold getAccessToken. now rewrite Htok.
Qed.

(** X13. No call retries.  [getAccessToken] adds at most the token
    request to the requests sent; [accessResource] and [uploadFile] add
    at most the token request followed by one request to the resource
    URL, and never remove or reorder what was sent before. *)
Theorem requests_bounded (s : Server) (sent : list http.Request) :
  (exists l, (getAccessToken env s sent).2 = (sent ++ l)%list
             /\ (l = [] \/ l = [tokenRequest s]))
  /\ (forall (method resource path : string) (input : option json.payload),
        exists l, (accessResource env s method resource path input sent).2
                  = (sent ++ l)%list
                  /\ (l = [] \/ l = [tokenRequest s]
                      \/ exists r, http.URL r = urlFor s resource path
                                   /\ (l = [r] \/ l = [tokenRequest s; r])))
  /\ (forall (secretId : Z) (fileField : SecretField),
        exists l, (uploadFile env s secretId fileField sent).2 = (sent ++ l)%list
                  /\ (l = [] \/ l = [tokenRequest s]
                      \/ exists r,
                          http.URL r
                          = urlFor s "secrets"
                              (fmt.itoa secretId +:+ "/fields/" +:+ Slug fileField)
                          /\ (l = [r] \/ l = [tokenRequest s; r]))).
Proof.
  assert (Htok : exists l, (getAccessToken env s sent).2 = (sent ++ l)%list
                           /\ (l = [] \/ l = [tokenRequest s])).
  { destruct (getAccessToken_adds s sent) as [H|H]; rewrite H.
    - exists []. now rewrite app_nil_r; auto.
    - eauto. }
  split; [exact Htok|]. destruct Htok as (l0 & Hl0 & Hcase). split.
  - intros method resource path input. unfold accessResource.
    destruct (negb _); [exists []; now rewrite app_nil_r; auto|].
    assert (Hnil : exists l, sent = (sent ++ l)%list
                   /\ (l = [] \/ l = [tokenRequest s]
                       \/ exists r, http.URL r = urlFor s resource path
                                    /\ (l = [r] \/ l = [tokenRequest s; r])))
      by (exists []; now rewrite app_nil_r; auto).
    assert (Hgo : forall b : http.body,
               exists l,
                 (match http.NewRequest env method (urlFor s resource path) b with
                  | (_, Some err) => http.ret ("", Some err)
                  | (None, None) => http.ret ("", None)
                  | (Some req, None) =>
                      '(accessToken, err) ← getAccessToken env s;
                      match err with
                      | Some err => http.ret ("", Some err)
                      | None =>
                          let h := http.Add "Authorization" ("Bearer " +:+ accessToken)
                                     (http.Headers req) in
                          let h :=
                            if String.eqb method "POST" || String.eqb method "PUT"
                               || String.eqb method "PATCH"
                            then http.Set_ "Content-Type" "application/json" h
                            else h in
                          o ← http.Do env (http.withHeaders h req);
                          let '(data, _, err) := handleResponse o in
                          http.ret (data, err)
                      end
                  end sent).2 = (sent ++ l)%list
                 /\ (l = [] \/ l = [tokenRequest s]
                     \/ exists r, http.URL r = urlFor s resource path
                                  /\ (l = [r] \/ l = [tokenRequest s; r]))).
    { intros b. unfold http.NewRequest.
      destruct (http.requestError env _ _); [exact Hnil|].
      unfold mbind, IO_bind, http.bind.
      destruct (getAccessToken env s sent) as [[tok [e|]] sent1]; cbn [snd] in Hl0;
        subst sent1.
      - exists l0. split; [reflexivity|]. destruct Hcase; auto.
      - unfold http.Do, http.ret.
        match goal with
        | |- context [handleResponse (http.roundTrip env _ ?r)] =>
            destruct (handleResponse (http.roundTrip env (sent ++ l0) r))
              as [[data st] err];
            exists (l0 ++ [r])%list; split; [cbn [snd]; now rewrite app_assoc|];
            right; right; exists r; split; [reflexivity|]
        end.
        destruct Hcase as [-> | ->]; auto. }
    destruct input as [v|]; [destruct (json.Marshal v) as [[d|] [e|]]|];
      first [exact Hnil | apply Hgo].
  - intros secretId fileField. unfold uploadFile, mbind, IO_bind, http.bind.
    destruct (getAccessToken env s sent) as [[tok [e|]] sent1]; cbn [snd] in Hl0;
      subst sent1.
    + exists l0. split; [reflexivity|]. destruct Hcase; auto.
    + rewrite Sprintf_upload_path. unfold resource, http.NewRequest.
      change (isEmpty "PUT") with false. cbv iota.
      destruct (http.requestError env "PUT" _).
      * exists l0. split; [reflexivity|]. destruct Hcase; auto.
      * unfold http.Do, http.ret.
        match goal with
        | |- context [handleResponse (http.roundTrip env _ ?r)] =>
            destruct (handleResponse (http.roundTrip env (sent ++ l0) r))
              as [[data st] err];
            exists (l0 ++ [r])%list; split; [cbn [snd]; now rewrite app_assoc|];
            right; right; exists r; split; [reflexivity|]
        end.
        destruct Hcase as [-> | ->]; auto.
Qed.

End Requests.

Section Static.

Variable env : http.Env.

(** X14. With a static access token, [accessResource] and [uploadFile]
    (when the request can be built) send exactly one request each, with
    that token as bearer: the token endpoint is never contacted. *)
Theorem static_token_single_request (s : Server) (sent : list http.Request) :
  AccessToken (Credentials (config s)) <> "" ->
  (forall (method resource path : string) (input : option json.payload) (body : string),
      resource = "secrets" \/ resource = "secret-templates" ->
      (input = None /\ body = "")
      \/ (exists v, input = Some v /\ json.Marshal v = (Some body, None)) ->
      http.requestError env (if isEmpty method then "GET" else method)
        (urlFor s resource path) = None ->
      (accessResource env s method resource path input sent).2
      = (sent ++ [resourceRequest s method resource path body
                    (AccessToken (Credentials (config s)))])%list)
  /\ (forall (secretId : Z) (fileField : SecretField),
        http.requestError env "PUT"
          (urlFor s "secrets" (fmt.itoa secretId +:+ "/fields/" +:+ Slug fileField))
        = None ->
        (uploadFile env s secretId fileField sent).2
        = (sent ++ [uploadRequest s secretId fileField (http.randomBoundary env sent)
                      (AccessToken (Credentials (config s)))])%list).
Proof.
  intros Hne.
  assert (Htok : getAccessToken env s sent
                 = ((AccessToken (Credentials (config s)), None), sent)).
  { unfold getAccessToken. apply isEmpty_false in Hne. now rewrite Hne. }
  split.
  - intros method resource path input body Hres Hin Hreq.
    now rewrite (accessResource_sends env s method resource path input body _ sent sent
                   Hres Hin Hreq Htok).
  - intros secretId fileField Hreq.
    unfold uploadFile, mbind, IO_bind, http.bind.
    rewrite Htok, Sprintf_upload_path.
    unfold resource, http.NewRequest. change (isEmpty "PUT") with false. cbv iota.
    rewrite Hreq.
    unfold http.Do, http.ret, http.withHeaders, http.Add, http.Set_.
    cbn [http.Headers http.Method http.URL http.Body].
    rewrite lookup_empty. cbn [default app].
    rewrite insert_insert_ne by discriminate. rewrite insert_empty.
    change (multipart.Close _) with (uploadForm (http.randomBoundary env sent) fileField).
    destruct (handleResponse _) as [[data st] err]. reflexivity.
Qed.

End Static.

(** ** More on the filename of an uploaded file *)

Lemma prefix_app (a b : string) : String.prefix a (a +:+ b) = true.
Proof.
  induction a as [|c a IH]; [now destruct b|].
  simpl. destruct (ascii_dec c c); [exact IH | contradiction].
Qed.

Lemma string_last (s : string) :
  s <> "" ->
  exists (u : string) (c : ascii),
    s = u +:+ String c "" /\ strings.HasSuffix s "." = Ascii.eqb c ".".
Proof.
  induction s as [|a s IH]; intros Hne; [contradiction|].
  destruct s as [|b s'].
  - exists "", a. split; [reflexivity|]. simpl. rewrite orb_false_r.
    destruct (Ascii.eqb a "."); reflexivity.
  - destruct (IH ltac:(discriminate)) as (u & c & Hu & Hc).
    exists (String a u), c. split; [simpl; now rewrite <- Hu|].
    rewrite <- Hc.
    change (strings.HasSuffix (String a (String b s')) ".")
      with ((String a (String b s') =? ".")%string || strings.HasSuffix (String b s') ".").
    simpl. destruct (Ascii.eqb a "."); reflexivity.
Qed.

(** X15. The filename [uploadFile] gives to the form is never empty; it
    begins with the filename of the field when there is one; and it has
    an extension unless the filename of the field is non-empty and ends
    with a dot. *)
Theorem formFilename_result (f : SecretField) :
  formFilename f <> ""
  /\ (Filename f <> "" -> strings.HasPrefix (formFilename f) (Filename f) = true)
  /\ (Filename f <> "" -> strings.HasSuffix (Filename f) "." = false ->
      hasExtension (formFilename f)).
Proof.
  unfold formFilename.
  destruct (isEmpty (Filename f)) eqn:He.
  - apply isEmpty_true in He. split; [discriminate|]. split; intros H; contradiction.
  - apply isEmpty_false in He.
    destruct (regexp.Match regexp.extension (Filename f)) eqn:Hm; cbn [negb].
    + split; [exact He|]. split.
      * intros _. unfold strings.HasPrefix.
        rewrite <- (append_nil_r (Filename f)) at 2. apply prefix_app.
      * intros _ _. now apply Match_extension.
    + split; [destruct (Filename f); [contradiction | discriminate]|]. split.
      * intros _. apply prefix_app.
      * intros _ Hdot. destruct (string_last _ He) as (u & c & Hu & Hc).
        rewrite Hdot in Hc. symmetry in Hc. apply Ascii.eqb_neq in Hc.
        exists u, c, "txt". rewrite Hu, append_assoc.
        repeat split; [exact Hc | discriminate].
Qed.

(** ** The example program *)

(** X16. The example program: without [TSS_TENANT], [server.New] fails
    with the configuration error and the process state is untouched; with
    it, the server's token URL is
    [https://{TSS_TENANT}.secretservercloud.com/oauth2/token].  With
    [TSS_TOKEN] set, the username and password are left empty and
    [getAccessToken] returns the token without sending a request;
    without it, the credential is [TSS_USERNAME] and [TSS_PASSWORD]. *)
Theorem main_newServer (Getenv : string -> string) (g : Globals) :
  (Getenv "TSS_TENANT" = "" ->
   main.newServer Getenv g = ((None, Some configurationError), g))
  /\ (Getenv "TSS_TENANT" <> "" ->
      exists (s : Server) (g' : Globals),
        main.newServer Getenv g = ((Some s, None), g')
        /\ urlFor s "token" ""
           = "https://" +:+ Getenv "TSS_TENANT" +:+ ".secretservercloud.com/oauth2/token"
        /\ (Getenv "TSS_TOKEN" <> "" ->
            Username (Credentials (config s)) = ""
            /\ Password (Credentials (config s)) = ""
            /\ forall (env : http.Env) (sent : list http.Request),
                getAccessToken env s sent = ((Getenv "TSS_TOKEN", None), sent))
        /\ (Getenv "TSS_TOKEN" = "" ->
            Credentials (config s)
            = {| AccessToken := ""; Domain := "";
                 Username := Getenv "TSS_USERNAME";
                 Password := Getenv "TSS_PASSWORD" |})).
Proof.
  split.
  - intros Ht. unfold main.newServer, New. cbn [ServerURL Tenant]. rewrite Ht.
    reflexivity.
  - intros Ht. unfold main.newServer.
    destruct (New _ g) as [[[s|] [e|]] g'] eqn:HNew.
    1,3,4: exfalso; revert HNew; unfold New; cbn [ServerURL Tenant];
      apply isEmpty_false in Ht; rewrite Ht; discriminate.
    exists s, g'. split; [reflexivity|].
    destruct (New_fields _ _ _ _ HNew) as (Hc & _).
    cbn [Credentials] in Hc.
    split.
    { destruct (New_fields _ _ _ _ HNew) as (_ & Hs' & Hten & Htld' & _ & Ht').
      cbn in Hs', Hten, Htld', Ht'.
      rewrite urlFor_grant_eq, Hs', Hten, Htld', cloud_base, Ht'.
      rewrite !append_assoc. reflexivity. }
    split.
    + intros Htok. unfold main.userCredential in Hc.
      apply isEmpty_false in Htok. rewrite Htok in Hc.
      rewrite Hc. cbn [Username Password]. repeat split.
      intros env sent. unfold getAccessToken. rewrite Hc. cbn [AccessToken].
      now rewrite Htok.
    + intros Htok. unfold main.userCredential in Hc. rewrite Htok in Hc.
      exact Hc.
Qed.

(** ** Instances of the properties above *)

Lemma New_defaults_witness :
  New (Examples.hosted Examples.password) Examples.globals
  = ((Some {| config :=
               {| Credentials := Examples.password; ServerURL := "https://h/";
                  TLD := "com"; Tenant := ""; apiPathURI := "api/v1";
                  tokenPathURI := "oauth2/token"; TLSClientConfig := None;
                  LogLevel_ := LevelDebug |} |}, None),
     {| DefaultTransport_TLSClientConfig := None; zerolog_GlobalLevel := DebugLevel |})
  /\ trimmedOf "//oauth2/token/" "oauth2/token".
Proof.
  split; [reflexivity|].
  destruct (New_defaults (Examples.hosted Examples.password) Examples.globals _ _ eq_refl)
    as (_ & _ & _ & _ & _ & _ & _ & _ & H & _).
  exact H.
Defined.

Lemma New_process_state_witness :
  (New (Examples.hosted Examples.password) Examples.globals).1
  = (Some {| config :=
              {| Credentials := Examples.password; ServerURL := "https://h/";
                 TLD := "com"; Tenant := ""; apiPathURI := "api/v1";
                 tokenPathURI := "oauth2/token"; TLSClientConfig := None;
                 LogLevel_ := LevelDebug |} |}, None)
  /\ zerolog_GlobalLevel (New (Examples.hosted Examples.password) Examples.globals).2
     = DebugLevel.
Proof.
  split; [reflexivity|].
  destruct (proj2 (New_process_state (Examples.hosted Examples.password) Examples.globals)
              _ eq_refl) as (_ & _ & H & _).
  exact (H eq_refl).
Defined.

Lemma urlFor_path_slashes_witness :
  "secrets" <> "token"
  /\ strings.Repeat "/" 1 +:+ "secrets" +:+ strings.Repeat "/" 2 <> "token"
  /\ urlFor (Examples.acme Examples.password) "/secrets//" "7"
     = urlFor (Examples.acme Examples.password) "secrets" "7".
Proof.
  split; [discriminate|]. split; [discriminate|].
  apply (proj2 (urlFor_path_slashes (Examples.acme Examples.password) "secrets" "7" 1 2));
    discriminate.
Defined.

Lemma urlFor_serverURL_slashes_witness :
  ServerURL (Examples.hosted Examples.password) <> ""
  /\ urlFor {| config :=
                {| Credentials := Examples.password; ServerURL := "https://h///";
                   TLD := ""; Tenant := ""; apiPathURI := "/api/v1";
                   tokenPathURI := "//oauth2/token/"; TLSClientConfig := None;
                   LogLevel_ := LevelDebug |} |} "secrets" "7"
     = urlFor {| config := Examples.hosted Examples.password |} "secrets" "7".
Proof.
  split; [discriminate|].
  apply (urlFor_serverURL_slashes {| config := Examples.hosted Examples.password |}
           _ "secrets" "7" 2); [discriminate | reflexivity | reflexivity | reflexivity].
Defined.

Lemma urlFor_cloud_witness :
  New (Examples.tenant Examples.password) Examples.globals
  = ((Some (Examples.acme Examples.password), None), Examples.globals)
  /\ urlFor (Examples.acme Examples.password) "token" ""
     = "https://acme.secretservercloud.com/oauth2/token".
Proof.
  split; [reflexivity|].
  exact (proj1 (urlFor_cloud (Examples.tenant Examples.password) Examples.globals
                  Examples.globals (Examples.acme Examples.password)
                  eq_refl eq_refl eq_refl eq_refl eq_refl)).
Defined.

Lemma getAccessToken_form_fields_witness :
  AccessToken (Credentials (config (Examples.acme MoreExamples.hostile))) = ""
  /\ exists form : string,
      (getAccessToken Examples.offline (Examples.acme MoreExamples.hostile) []).2
      = [ {| http.Method := "POST";
             http.URL := "https://acme.secretservercloud.com/oauth2/token";
             http.Headers :=
               {[ "Content-Type" := ["application/x-www-form-urlencoded"] ]};
             http.Body := http.raw form |} ]
      /\ countByte "=" form = 3%nat
      /\ countByte "&" form = 2%nat.
Proof.
  split; [reflexivity|].
  exact (getAccessToken_form_fields Examples.offline
           (Examples.acme MoreExamples.hostile) [] eq_refl eq_refl).
Defined.

Lemma getAccessToken_returns_access_token_witness :
  json.parse Examples.grant
  = Some (json.Object ([] ++ ("access_token", json.Str "T0")
                          :: [("expires_in", json.Number "1200")]))
  /\ getAccessToken (Examples.network Examples.grant)
       (Examples.acme Examples.password) []
     = (("T0", None), [tokenRequest (Examples.acme Examples.password)]).
Proof.
  split; [reflexivity|].
  refine (getAccessToken_returns_access_token (Examples.network Examples.grant)
            (Examples.acme Examples.password) []
            {| http.StatusCode := 200; http.Status := "200 OK";
               http.ResponseBody := Examples.grant |}
            [] [("expires_in", json.Number "1200")] "access_token" "T0"
            eq_refl eq_refl eq_refl _ eq_refl eq_refl _ _).
  - simpl. lia.
  - constructor.
  - constructor; [|constructor].
    simpl. right. exists "1200", 1200. split; reflexivity.
Defined.

Lemma accessResource_request_witness :
  getAccessToken (Examples.network Examples.grant) (Examples.acme Examples.static) []
  = (("s3cr3t", None), [])
  /\ exists req : http.Request,
      accessResource (Examples.network Examples.grant) (Examples.acme Examples.static)
        "PATCH" "secrets" "7" (Some (json.encodable "{}")) []
      = (let '(data, _, err) :=
           handleResponse (http.roundTrip (Examples.network Examples.grant) [] req) in
         (data, err), [req])
      /\ http.Headers req !! "Content-Type" = Some ["application/json"].
Proof.
  split; [reflexivity|].
  destruct (accessResource_request (Examples.network Examples.grant)
              (Examples.acme Examples.static) "PATCH" "secrets" "7"
              (Some (json.encodable "{}")) "{}" "s3cr3t" [] []
              (or_introl eq_refl)
              (or_intror (ex_intro _ (json.encodable "{}") (conj eq_refl eq_refl)))
              eq_refl eq_refl)
    as (req & Hrun & _ & _ & _ & _ & Hct & _).
  exists req. split; [exact Hrun|]. apply Hct. right. right. reflexivity.
Defined.

Lemma accessResource_request_error_witness :
  http.requestError MoreExamples.strict "GET"
    (urlFor (Examples.acme Examples.password) "secrets" MoreExamples.twoLines)
  = Some (netError "net/url: invalid control character in URL")
  /\ accessResource MoreExamples.strict (Examples.acme Examples.password)
       "GET" "secrets" MoreExamples.twoLines None []
     = (("", Some (netError "net/url: invalid control character in URL")), []).
Proof.
  split; [reflexivity|].
  exact (accessResource_request_error MoreExamples.strict
           (Examples.acme Examples.password) "GET" "secrets" MoreExamples.twoLines
           None "" _ [] (or_introl eq_refl) (or_introl (conj eq_refl eq_refl)) eq_refl).
Defined.

Lemma accessResource_token_error_witness :
  getAccessToken Examples.offline (Examples.acme Examples.password) []
  = (("", Some (netError "dial tcp: connection refused")),
     [tokenRequest (Examples.acme Examples.password)])
  /\ accessResource Examples.offline (Examples.acme Examples.password)
       "GET" "secrets" "7" None []
     = (("", Some (netError "dial tcp: connection refused")),
        [tokenRequest (Examples.acme Examples.password)]).
Proof.
  assert (H : getAccessToken Examples.offline (Examples.acme Examples.password) []
              = (("", Some (netError "dial tcp: connection refused")),
                 [tokenRequest (Examples.acme Examples.password)]))
    by (vm_compute; reflexivity).
  split; [exact H|].
  exact (accessResource_token_error Examples.offline (Examples.acme Examples.password)
           "GET" "secrets" "7" None "" "" _ [] _
           (or_introl eq_refl) (or_introl (conj eq_refl eq_refl)) eq_refl H).
Defined.

Lemma uploadFile_request_error_witness :
  getAccessToken MoreExamples.strict (Examples.acme Examples.static) []
  = (("s3cr3t", None), [])
  /\ uploadFile MoreExamples.strict (Examples.acme Examples.static) 5
       {| Slug := MoreExamples.twoLines; Filename := "id_rsa"; ItemValue := "KEY" |} []
     = (Some (netError "net/url: invalid control character in URL"), []).
Proof.
  split; [reflexivity|].
  exact (uploadFile_request_error MoreExamples.strict (Examples.acme Examples.static) 5
           {| Slug := MoreExamples.twoLines; Filename := "id_rsa"; ItemValue := "KEY" |}
           [] [] "s3cr3t" _ eq_refl eq_refl).
Defined.

Lemma uploadFile_token_error_witness :
  getAccessToken Examples.offline (Examples.acme Examples.password) []
  = (("", Some (netError "dial tcp: connection refused")),
     [tokenRequest (Examples.acme Examples.password)])
  /\ uploadFile Examples.offline (Examples.acme Examples.password) 5
       {| Slug := "private-key"; Filename := "id_rsa"; ItemValue := "KEY" |} []
     = (Some (netError "dial tcp: connection refused"),
        [tokenRequest (Examples.acme Examples.password)]).
Proof.
  assert (H : getAccessToken Examples.offline (Examples.acme Examples.password) []
              = (("", Some (netError "dial tcp: connection refused")),
                 [tokenRequest (Examples.acme Examples.password)]))
    by (vm_compute; reflexivity).
  split; [exact H|].
  exact (uploadFile_token_error Examples.offline (Examples.acme Examples.password) 5
           {| Slug := "private-key"; Filename := "id_rsa"; ItemValue := "KEY" |}
           [] _ "" _ H).
Defined.

Lemma static_token_single_request_witness :
  AccessToken (Credentials (config (Examples.acme Examples.static))) <> ""
  /\ (accessResource (Examples.network Examples.grant) (Examples.acme Examples.static)
        "GET" "secret-templates" "3" None []).2
     = [resourceRequest (Examples.acme Examples.static) "GET" "secret-templates" "3"
          "" "s3cr3t"].
Proof.
  split; [discriminate|].
  apply (proj1 (static_token_single_request (Examples.network Examples.grant)
                  (Examples.acme Examples.static) [] ltac:(discriminate))
           "GET" "secret-templates" "3" None "").
  - right. reflexivity.
  - left. split; reflexivity.
  - reflexivity.
Defined.

Lemma formFilename_result_witness :
  Filename {| Slug := "key"; Filename := "id_rsa"; ItemValue := "" |} <> ""
  /\ strings.HasSuffix "id_rsa" "." = false
  /\ hasExtension (formFilename {| Slug := "key"; Filename := "id_rsa"; ItemValue := "" |}).
Proof.
  split; [discriminate|]. split; [reflexivity|].
  apply (proj2 (proj2 (formFilename_result
                         {| Slug := "key"; Filename := "id_rsa"; ItemValue := "" |})));
    [discriminate | reflexivity].
Defined.

Example formFilename_trailing_dot :
  formFilename {| Slug := "key"; Filename := "a."; ItemValue := "" |} = "a..txt"
  /\ regexp.Match regexp.extension "a..txt" = false.
Proof. split; reflexivity. Qed.

Lemma main_newServer_witness :
  MoreExamples.environ "s3cr3t" "TSS_TENANT" <> ""
  /\ MoreExamples.environ "s3cr3t" "TSS_TOKEN" <> ""
  /\ exists (s : Server) (g' : Globals),
      main.newServer (MoreExamples.environ "s3cr3t") Examples.globals
      = ((Some s, None), g')
      /\ urlFor s "token" "" = "https://acme.secretservercloud.com/oauth2/token"
      /\ Username (Credentials (config s)) = "".
Proof.
  split; [discriminate|]. split; [discriminate|].
  destruct (proj2 (main_newServer (MoreExamples.environ "s3cr3t") Examples.globals)
              ltac:(discriminate))
    as (s & g' & HNew & Hurl & Htok & _).
  exists s, g'. split; [exact HNew|]. split; [exact Hurl|].
  exact (proj1 (Htok ltac:(discriminate))).
Defined.
